(** * Shallow embedding of [generate_epg.py] (JIO_TV EPG generator)

    The script reads an M3U playlist, fetches the JioTV schedule for every
    (channel, day offset) pair with a bounded retry loop, and writes an
    XMLTV document.  This file embeds [parse_m3u], [fetch_epg] and [main]. *)

From Stdlib Require Import List String Ascii ZArith Lia Permutation Bool Sorted.
From Stdlib Require Import Numbers.DecimalString Numbers.DecimalPos.
Import ListNotations.
Open Scope string_scope.
Set Warnings "-register-all".

(* ================================================================== *)
(** ** Python string helpers *)
(* ================================================================== *)

(** The double-quote character. *)
Definition dq : ascii := Ascii.ascii_of_nat 34.

(** [str.isspace] on ASCII characters: tab, newline, vertical tab, form
    feed, carriage return, the separators 0x1c-0x1f, and space. *)
Definition is_space (c : ascii) : bool :=
  let n := nat_of_ascii c in
  ((9 <=? n) && (n <=? 13))%nat || ((28 <=? n) && (n <=? 32))%nat.

Fixpoint lstrip (s : string) : string :=
  match s with
  | EmptyString => EmptyString
  | String c s' => if is_space c then lstrip s' else s
  end.

Definition rstrip (s : string) : string :=
  string_of_list_ascii (rev (list_ascii_of_string
    (lstrip (string_of_list_ascii (rev (list_ascii_of_string s)))))).

(** [str.strip()] with no argument. *)
Definition strip (s : string) : string := rstrip (lstrip s).

(** [s.startswith(p)]. *)
Definition startswith (p s : string) : bool := String.prefix p s.

(** [c in s] for a one-character string [c]. *)
Fixpoint contains_char (c : ascii) (s : string) : bool :=
  match s with
  | EmptyString => false
  | String c' s' => Ascii.eqb c c' || contains_char c s'
  end.

(** [s.split(c, 1)[1]]: the text after the first occurrence of [c]
    (only called when [c in s]). *)
Fixpoint after_first (c : ascii) (s : string) : string :=
  match s with
  | EmptyString => EmptyString
  | String c' s' => if Ascii.eqb c c' then s' else after_first c s'
  end.

(** ** The regular expression of [re.search]: the attribute name, an equals
    sign and a double quote, a group of one or more non-quote characters,
    and a closing double quote. *)

(** Greedy run of the non-quote class: the longest prefix without a double quote, and
    the rest of the string. *)
Fixpoint span_nonquote (s : string) : string * string :=
  match s with
  | EmptyString => (EmptyString, EmptyString)
  | String c s' =>
      if Ascii.eqb c dq then (EmptyString, s)
      else let (v, r) := span_nonquote s' in (String c v, r)
  end.

(** The pattern anchored at the start of [s]: the key (attribute, equals sign, quote), a non-empty
    run of non-quote characters, then a closing quote.  Backtracking cannot
    help: a shorter run is followed by a non-quote character. *)
Definition match_attr_at (key s : string) : option string :=
  if String.prefix key s then
    match span_nonquote (substring (String.length key)
                           (String.length s - String.length key) s) with
    | (EmptyString, _) => None
    | (v, String q _) => if Ascii.eqb q dq then Some v else None
    | (_, EmptyString) => None
    end
  else None.

(** [re.search]: the leftmost position where the pattern matches;
    the result is [group(1)]. *)
Fixpoint re_search_attr (key s : string) : option string :=
  match match_attr_at key s with
  | Some v => Some v
  | None =>
      match s with
      | EmptyString => None
      | String _ s' => re_search_attr key s'
      end
  end.

Definition tvg_id_key : string := "tvg-id=" ++ String dq EmptyString.
Definition tvg_logo_key : string := "tvg-logo=" ++ String dq EmptyString.

(* ================================================================== *)
(** ** Source loader: [parse_m3u] *)
(* ================================================================== *)

(** A channel dictionary with the keys id, name and logo. *)
Record channel := mk_channel { ch_id : string; ch_name : string; ch_logo : string }.

(** The body of the [for line in lines] loop of [parse_m3u]: [Some ch] when
    the line appends a channel, [None] when it is skipped. *)
Definition parse_line (line0 : string) : option channel :=
  let line := strip line0 in
  if startswith "#EXTINF" line then
    match re_search_attr tvg_id_key line with
    | None => None
    | Some g =>
        let tvg_id := strip g in
        let tvg_logo :=
          match re_search_attr tvg_logo_key line with
          | Some l => strip l
          | None => EmptyString
          end in
        let name := if contains_char "," line
                    then strip (after_first "," line) else "Unknown" in
        Some (mk_channel tvg_id name tvg_logo)
    end
  else None.

(** The loop itself, appending to [channels]. *)
Definition parse_lines (lines : list string) : list channel :=
  fold_left (fun channels line =>
               match parse_line line with
               | Some ch => (channels ++ [ch])%list
               | None => channels
               end) lines [].

(** The playlist file: [None] when [os.path.exists(path)] is false, else the
    list returned by [f.readlines()]. *)
Definition m3u_file := option (list string).

Definition parse_m3u (file : m3u_file) : list channel :=
  match file with
  | None => []
  | Some lines => parse_lines lines
  end.

Definition ex_line : string :=
  "#EXTINF:-1 tvg-id=" ++ String dq "7" ++ String dq EmptyString ++
  " tvg-logo=" ++ String dq "l.png" ++ String dq EmptyString ++ ",News, Live".

Example parse_ex :
  parse_m3u (Some ["#EXTM3U"; ex_line; "http://x/7.m3u8"])
  = [mk_channel "7" "News, Live" "l.png"].
Proof. reflexivity. Qed.

(* ================================================================== *)
(** ** JSON values as returned by [r.json()] *)
(* ================================================================== *)

(** Numbers are modelled as integers (the API sends epoch milliseconds as
    integers); [JObj] keeps the members in document order. *)
Inductive json : Type :=
| JNull
| JBool (b : bool)
| JInt (z : Z)
| JStr (s : string)
| JArr (l : list json)
| JObj (kvs : list (string * json)).

(** [d.get(k)] on a dict decoded by [json.loads]: a repeated key keeps its
    last value. *)
Definition obj_get (k : string) (kvs : list (string * json)) : option json :=
  fold_left (fun acc kv => if String.eqb k (fst kv) then Some (snd kv) else acc)
            kvs None.

(** Python truthiness of a decoded value. *)
Definition truthy (j : json) : bool :=
  match j with
  | JNull => false
  | JBool b => b
  | JInt z => negb (Z.eqb z 0)
  | JStr s => negb (String.eqb s EmptyString)
  | JArr l => negb (Nat.eqb (List.length l) 0)
  | JObj kvs => negb (Nat.eqb (List.length kvs) 0)
  end.

(* ================================================================== *)
(** ** Fetch dispatcher: [fetch_epg] *)
(* ================================================================== *)

Definition MAX_RETRIES : nat := 3.
Definition RETRY_DELAY : nat := 3.

(** What one [requests.get] call does: raise ([RExc]), or answer with a
    status code and a body that [r.json()] decodes ([Some j]) or on which
    it raises ([None]). *)
Inductive response : Type :=
| RExc
| RHttp (status : Z) (body : option json).

(** [status in (s1, s2, ...)]. *)
Definition status_in (s : Z) (l : list Z) : bool := existsb (Z.eqb s) l.

(** What the body of the loop does at attempt [attempt]: return the data
    component of the triple, or [continue] after sleeping. *)
Inductive step : Type :=
| Return (data : option json)
| Continue.

(** The [except Exception] branch. *)
Definition on_exception (attempt : nat) : step :=
  if Nat.ltb attempt MAX_RETRIES then Continue else Return None.

Definition attempt_body (attempt : nat) (r : response) : step :=
  match r with
  | RExc => on_exception attempt
  | RHttp s body =>
      if Z.eqb s 200 then
        match body with
        | Some j => Return (Some j)
        | None => on_exception attempt   (* r.json() raised *)
        end
      else if status_in s [404; 403]%Z then Return None
      else if status_in s [429; 450; 500; 502; 503]%Z then
        (if Nat.ltb attempt MAX_RETRIES then Continue else Return None)
      else Return None
  end.

(** Observable outcome of a call: the returned value ([None] is Python's
    implicit [return None] when the [for] loop runs out), the number of
    [requests.get] calls, and the arguments of [time.sleep]. *)
Record fetch_out := mk_fetch_out {
  fo_result : option (string * Z * option json);
  fo_attempts : nat;
  fo_sleeps : list nat }.

Fixpoint fetch_loop (channel_id : string) (offset : Z) (resp : nat -> response)
    (range : list nat) : fetch_out :=
  match range with
  | [] => mk_fetch_out None 0 []
  | attempt :: rest =>
      match attempt_body attempt (resp attempt) with
      | Return d => mk_fetch_out (Some (channel_id, offset, d)) 1 []
      | Continue =>
          let o := fetch_loop channel_id offset resp rest in
          mk_fetch_out (fo_result o) (S (fo_attempts o))
                       (RETRY_DELAY * attempt :: fo_sleeps o)
      end
  end.

(** [fetch_epg(channel_id, offset, idx, total)]; [resp a] is what the
    network does at attempt [a] ([idx] and [total] only feed the log). *)
Definition fetch_epg (channel_id : string) (offset : Z) (resp : nat -> response)
  : fetch_out :=
  fetch_loop channel_id offset resp (seq 1 MAX_RETRIES).

(** A response on which the loop goes round again (before the last
    attempt). *)
Definition retryable (r : response) : bool :=
  match r with
  | RExc => true
  | RHttp s body =>
      if Z.eqb s 200 then match body with Some _ => false | None => true end
      else status_in s [429; 450; 500; 502; 503]%Z
  end.

(** The data an attempt hands back when it is the last one. *)
Definition payload_of (r : response) : option json :=
  match r with
  | RHttp s (Some j) => if Z.eqb s 200 then Some j else None
  | _ => None
  end.

Example fetch_ex_500 :
  fetch_epg "7" 0 (fun _ => RHttp 500 None) = mk_fetch_out (Some ("7", 0%Z, None)) 3 [3; 6].
Proof. reflexivity. Qed.

(* ================================================================== *)
(** ** [datetime.fromtimestamp] and [strftime] *)
(* ================================================================== *)

(** Proleptic Gregorian (year, month, day) of a day count from 1970-01-01,
    with floor division throughout. *)
Definition civil_from_days (days : Z) : Z * Z * Z :=
  let z := (days + 719468)%Z in
  let era := (z / 146097)%Z in
  let doe := (z - era * 146097)%Z in
  let yoe := ((doe - doe / 1460 + doe / 36524 - doe / 146096) / 365)%Z in
  let doy := (doe - (365 * yoe + yoe / 4 - yoe / 100))%Z in
  let mp := ((5 * doy + 2) / 153)%Z in
  let d := (doy - (153 * mp + 2) / 5 + 1)%Z in
  let m := (if Z.ltb mp 10 then mp + 3 else mp - 9)%Z in
  let y := (yoe + era * 400 + (if Z.leb m 2 then 1 else 0))%Z in
  (y, m, d).

(** A naive local [datetime] down to the second. *)
Record datetime := mk_datetime {
  dt_year : Z; dt_month : Z; dt_day : Z;
  dt_hour : Z; dt_minute : Z; dt_second : Z }.

Section Build.

(** The UTC offset of the host's local time zone, in seconds, which
    [datetime.fromtimestamp] applies (a zone without daylight saving). *)
Variable utc_offset : Z.

(** Python's [str()] of a decoded list or dict (its [repr]), which only
    feeds element texts. *)
Variable repr_container : json -> string.

(** [datetime.fromtimestamp(ms / 1000)] for an integer [ms]: the seconds
    are the floor of [ms / 1000] (the float quotient of an integer below
    2^53 by 1000 never reaches the next integer), and it raises when the
    local year leaves [1, 9999]. *)
Definition fromtimestamp_ms (ms : Z) : option datetime :=
  let local := (ms / 1000 + utc_offset)%Z in
  let '(y, m, d) := civil_from_days (local / 86400) in
  let sod := (local mod 86400)%Z in
  if (Z.leb 1 y && Z.leb y 9999)%bool then
    Some (mk_datetime y m d (sod / 3600) ((sod mod 3600) / 60) (sod mod 60))
  else None.

(** Exactly [width] decimal digits of [n] (most significant first). *)
Fixpoint digits (width : nat) (n : Z) : string :=
  match width with
  | O => EmptyString
  | S w => digits w (n / 10) ++ String (ascii_of_nat (48 + Z.to_nat (n mod 10))) EmptyString
  end.

(** [dt.strftime("%Y%m%d%H%M%S +0530")]; [%Y] is rendered with four digits
    (CPython pads it on Linux since 3.12.5). *)
Definition strftime_xmltv (dt : datetime) : string :=
  digits 4 (dt_year dt) ++ digits 2 (dt_month dt) ++ digits 2 (dt_day dt) ++
  digits 2 (dt_hour dt) ++ digits 2 (dt_minute dt) ++ digits 2 (dt_second dt) ++
  " +0530".

(** [str(v)] of a decoded value. *)
Definition py_str (v : json) : string :=
  match v with
  | JNull => "None"
  | JBool true => "True"
  | JBool false => "False"
  | JInt z => NilEmpty.string_of_int (Z.to_int z)
  | JStr s => s
  | JArr _ | JObj _ => repr_container v
  end.

(* ================================================================== *)
(** ** Document builder *)
(* ================================================================== *)

Definition SHOW_IMAGE_BASE : string :=
  "https://jiotvimages.cdn.jio.com/dare_images/shows/".

(** A [programme] element: its three attributes and its children. *)
Record programme := mk_programme {
  pr_start : string; pr_stop : string; pr_channel : string;
  pr_title : string; pr_desc : string;
  pr_category : option string; pr_icon : option string }.

(** [p[key] / 1000] as far as [fromtimestamp] needs it: [None] when it
    raises ([p] not a dict, missing key, value not a number; a [bool] is an
    [int] in Python). *)
Definition epoch_field (key : string) (p : json) : option Z :=
  match p with
  | JObj kvs =>
      match obj_get key kvs with
      | Some (JInt z) => Some z
      | Some (JBool b) => Some (if b then 1%Z else 0%Z)
      | _ => None
      end
  | _ => None
  end.

(** The [try] block: both datetimes, or [None] when it raises. *)
Definition entry_times (p : json) : option (datetime * datetime) :=
  match epoch_field "startEpoch" p with
  | None => None
  | Some s =>
      match fromtimestamp_ms s with
      | None => None
      | Some start =>
          match epoch_field "endEpoch" p with
          | None => None
          | Some e =>
              match fromtimestamp_ms e with
              | None => None
              | Some stop => Some (start, stop)
              end
          end
      end
  end.

(** [p.get(k, default)] on the (dict) entry. *)
Definition entry_get (p : json) (k : string) : option json :=
  match p with JObj kvs => obj_get k kvs | _ => None end.

(** One iteration of [for p in data.get("epg", [])]: [Some None] when the
    entry is skipped by [continue], [Some (Some pr)] when it appends [pr],
    [None] when an exception escapes ([SHOW_IMAGE_BASE + poster] with a
    poster that is not a string). *)
Definition entry_step (cid : string) (p : json) : option (option programme) :=
  match entry_times p with
  | None => Some None
  | Some (start, stop) =>
      let title := strip (py_str (match entry_get p "showname" with
                                  | Some v => v | None => JStr "Unknown" end)) in
      let desc := strip (py_str (match entry_get p "description" with
                                 | Some v => v | None => JStr EmptyString end)) in
      let category := match entry_get p "genre" with
                      | Some g => Some (strip (py_str g)) | None => None end in
      let mk icon := mk_programme (strftime_xmltv start) (strftime_xmltv stop) cid
                                  title desc category icon in
      match entry_get p "episodePoster" with
      | Some poster =>
          if truthy poster then
            match poster with
            | JStr s => Some (Some (mk (Some (SHOW_IMAGE_BASE ++ s))))
            | _ => None
            end
          else Some (Some (mk None))
      | None => Some (Some (mk None))
      end
  end.

(** The inner loop over the entries of one payload. *)
Fixpoint build_entries (cid : string) (es : list json) : option (list programme) :=
  match es with
  | [] => Some []
  | p :: es' =>
      match entry_step cid p with
      | None => None
      | Some o =>
          match build_entries cid es' with
          | None => None
          | Some ps => Some (match o with Some pr => pr :: ps | None => ps end)
          end
      end
  end.


(** [needle in s] for strings. *)
Fixpoint str_contains (needle s : string) : bool :=
  String.prefix needle s ||
  match s with
  | EmptyString => false
  | String _ s' => str_contains needle s'
  end.

(** [if not data or "epg" not in data: continue]: [Some true] when the task
    is skipped, [Some false] when [(cid, data)] is appended, [None] when
    the [in] test raises (a number or a boolean). *)
Definition skip_payload (data : option json) : option bool :=
  match data with
  | None => Some true
  | Some j =>
      if negb (truthy j) then Some true
      else match j with
           | JObj kvs => Some (negb (existsb (fun kv => String.eqb "epg" (fst kv)) kvs))
           | JArr l =>
               Some (negb (existsb (fun x => match x with
                                             | JStr s => String.eqb s "epg"
                                             | _ => false end) l))
           | JStr s => Some (negb (str_contains "epg" s))
           | _ => None
           end
  end.

(** The items [for p in data.get("epg", [])] runs over, or [None] when
    this raises: a list or string payload has no [get], and [None], a
    number or a boolean is not iterable.  A dict is iterated by its keys and
    a string by its characters: strings, which the entry loop drops. *)
Definition schedule_of (data : json) : option (list json) :=
  match data with
  | JObj kvs =>
      match obj_get "epg" kvs with
      | Some (JArr l) => Some l
      | Some (JObj kvs') => Some (map (fun kv => JStr (fst kv)) kvs')
      | Some (JStr s) =>
          Some (map (fun c => JStr (String c EmptyString)) (list_ascii_of_string s))
      | Some _ => None
      | None => Some []
      end
  | _ => None
  end.

(** A submitted task: [task_index], [ch["id"]] and [offset]. *)
Record task := mk_task { t_index : nat; t_cid : string; t_offset : Z }.

Definition offsets : list Z := [0; 1; 2; 3]%Z.

Fixpoint number_tasks (i : nat) (l : list (string * Z)) : list task :=
  match l with
  | [] => []
  | (cid, off) :: l' => mk_task i cid off :: number_tasks (S i) l'
  end.

(** The submission loops: offsets outside, channels inside, indices from 1. *)
Definition tasks (channels : list channel) : list task :=
  number_tasks 1 (flat_map (fun off => map (fun ch => (ch_id ch, off)) channels) offsets).

(** The network: [net i a] is what attempt [a] of task [i] gets. *)
Definition network := nat -> nat -> response.

Definition run_task (net : network) (t : task) : fetch_out :=
  fetch_epg (t_cid t) (t_offset t) (net (t_index t)).

(** One iteration of [for future in as_completed(future_map)]: [None] when
    an exception escapes [main], [Some None] on [continue], [Some (Some r)]
    when [r] is appended to [results].  Unpacking the implicit [None] of
    [fetch_epg] raises inside the [try] and is logged. *)
Definition collect_step (net : network) (t : task) : option (option (string * json)) :=
  match fo_result (run_task net t) with
  | None => Some None
  | Some (cid, _, data) =>
      match skip_payload data with
      | None => None
      | Some true => Some None
      | Some false =>
          match data with
          | Some j => Some (Some (cid, j))
          | None => Some None
          end
      end
  end.

(** The loop over the futures in completion order [order]. *)
Fixpoint collect (net : network) (order : list task) : option (list (string * json)) :=
  match order with
  | [] => Some []
  | t :: rest =>
      match collect_step net t with
      | None => None
      | Some o =>
          match collect net rest with
          | None => None
          | Some rs => Some (match o with Some r => r :: rs | None => rs end)
          end
      end
  end.

(** [for cid, data in results: ...]. *)
Fixpoint build_results (results : list (string * json)) : option (list programme) :=
  match results with
  | [] => Some []
  | (cid, data) :: rs =>
      match schedule_of data with
      | None => None
      | Some es =>
          match build_entries cid es with
          | None => None
          | Some ps =>
              match build_results rs with
              | None => None
              | Some qs => Some (ps ++ qs)%list
              end
          end
      end
  end.

(** Children of the root [tv] element. *)
Inductive element : Type :=
| EChannel (id name : string) (icon : option string)
| EProgramme (p : programme).

Definition channel_element (ch : channel) : element :=
  EChannel (ch_id ch) (ch_name ch)
           (if String.eqb (ch_logo ch) EmptyString then None else Some (ch_logo ch)).

(** How a run ends: the early [return] before any fetch, an exception out
    of [main] (no file written), or the document written to [OUTPUT_FILE]. *)
Inductive outcome : Type :=
| Aborted
| Crashed
| Written (doc : list element).

Record run := mk_run { run_outcome : outcome; run_requests : nat }.

(** [main()]: [order] is the order in which [as_completed] yields the
    submitted tasks (a permutation of [tasks channels]). *)
Definition main (file : m3u_file) (net : network) (order : list task) : run :=
  match parse_m3u file with
  | [] => mk_run Aborted 0
  | channels =>
      let requests := list_sum (map (fun t => fo_attempts (run_task net t)) (tasks channels)) in
      let chan_els := map channel_element channels in
      match collect net order with
      | None => mk_run Crashed requests
      | Some results =>
          match build_results results with
          | None => mk_run Crashed requests
          | Some progs => mk_run (Written (chan_els ++ map EProgramme progs)%list) requests
          end
      end
  end.

End Build.

(** A task whose outcome [main] handles without raising: its future
    fails or returns nothing, its data is dropped by the [epg] check, or
    the data is appended and the programme builder runs over its schedule
    to the end. *)
Definition task_handled (utc_offset : Z) (repr_container : json -> string)
    (net : network) (t : task) : bool :=
  match collect_step net t with
  | None => false
  | Some None => true
  | Some (Some (cid, j)) =>
      match schedule_of j with
      | Some es =>
          match build_entries utc_offset repr_container cid es with
          | Some _ => true
          | None => false
          end
      | None => false
      end
  end.

(** The programme elements one task adds when nothing raises. *)
Definition task_programmes (utc_offset : Z) (repr_container : json -> string)
    (net : network) (t : task) : list programme :=
  match collect_step net t with
  | Some (Some (cid, j)) =>
      match schedule_of j with
      | Some es =>
          match build_entries utc_offset repr_container cid es with
          | Some ps => ps
          | None => []
          end
      | None => []
      end
  | _ => []
  end.

(** A decimal digit character, and a string made of them only. *)
Definition is_digit (c : ascii) : bool :=
  ((48 <=? nat_of_ascii c) && (nat_of_ascii c <=? 57))%nat.

Fixpoint all_digits (s : string) : bool :=
  match s with
  | EmptyString => true
  | String c s' => is_digit c && all_digits s'
  end.

(* ================================================================== *)
(** ** The workflow script [.github/workflows/generate_epg.py] *)
(* ================================================================== *)

Module Workflow.

Definition nl : ascii := Ascii.ascii_of_nat 10.

(** ** [re.findall] with the pattern of [generate_epg]

    The pattern is: the [tvg-id] key, a group of digits, a quote; any
    characters but newline; the [tvg-logo] key, a group of non-quote
    characters (newlines included), a quote; any characters but newline, a
    comma, and a group of any characters but newline. *)

(** Greedy run of digits, and the rest. *)
Fixpoint span_digits (s : string) : string * string :=
  match s with
  | EmptyString => (EmptyString, EmptyString)
  | String c s' =>
      if is_digit c then let (d, r) := span_digits s' in (String c d, r)
      else (EmptyString, s)
  end.

(** The text up to the first newline, and the rest from it. *)
Fixpoint span_line (s : string) : string * string :=
  match s with
  | EmptyString => (EmptyString, EmptyString)
  | String c s' =>
      if Ascii.eqb c nl then (EmptyString, s)
      else let (a, b) := span_line s' in (String c a, b)
  end.

(** The greedy wildcard, a comma, then a group, on a newline-free text:
    the group is what follows the last comma. *)
Fixpoint after_last_comma (s : string) : option string :=
  match s with
  | EmptyString => None
  | String c s' =>
      match after_last_comma s' with
      | Some r => Some r
      | None => if Ascii.eqb c "," then Some s' else None
      end
  end.

(** The logo part of the pattern anchored at [s], with the trailing part:
    the logo group, the name group, and the text after the match. *)
Definition logo_at (s : string) : option (string * string * string) :=
  if String.prefix tvg_logo_key s then
    match span_nonquote (substring (String.length tvg_logo_key)
                           (String.length s - String.length tvg_logo_key) s) with
    | (EmptyString, _) => None
    | (v, String q rest) =>
        if Ascii.eqb q dq then
          let (line, remaining) := span_line rest in
          match after_last_comma line with
          | Some name => Some (v, name, remaining)
          | None => None
          end
        else None
    | (_, EmptyString) => None
    end
  else None.

(** The greedy wildcard before the logo: positions on the current line,
    the rightmost that leads to a match first. *)
Fixpoint logo_search (s : string) : option (string * string * string) :=
  match s with
  | EmptyString => logo_at s
  | String c s' =>
      if Ascii.eqb c nl then logo_at s
      else match logo_search s' with
           | Some m => Some m
           | None => logo_at s
           end
  end.

(** The whole pattern anchored at [s]: the three groups and the text after
    the match. *)
Definition id_at (s : string) : option (string * string * string * string) :=
  if String.prefix tvg_id_key s then
    match span_digits (substring (String.length tvg_id_key)
                         (String.length s - String.length tvg_id_key) s) with
    | (EmptyString, _) => None
    | (d, String q rest) =>
        if Ascii.eqb q dq then
          match logo_search rest with
          | Some (logo, name, remaining) => Some (d, logo, name, remaining)
          | None => None
          end
        else None
    | (_, EmptyString) => None
    end
  else None.

(** The scan of [findall]: a match resumes the search where it ends, a
    failure one character further.  Every step consumes a character, so
    [S (length s)] steps suffice. *)
Fixpoint findall_fuel (fuel : nat) (s : string) : list (string * string * string) :=
  match fuel with
  | O => []
  | S f =>
      match id_at s with
      | Some (d, logo, name, remaining) => (d, logo, name) :: findall_fuel f remaining
      | None =>
          match s with
          | EmptyString => []
          | String _ s' => findall_fuel f s'
          end
      end
  end.

Definition findall_channels (content : string) : list (string * string * string) :=
  findall_fuel (S (String.length content)) content.

(** ** [int()] of a decoded value *)

(** Decimal digits with single underscores between digits. *)
Fixpoint dec_digits (l : list ascii) (acc : Z) : option Z :=
  match l with
  | [] => Some acc
  | c :: l' =>
      if is_digit c then dec_digits l' (acc * 10 + Z.of_nat (nat_of_ascii c - 48))
      else if Ascii.eqb c "_" then
        match l' with
        | d :: _ => if is_digit d then dec_digits l' acc else None
        | [] => None
        end
      else None
  end.

Definition unsigned_int (l : list ascii) : option Z :=
  match l with
  | d :: _ => if is_digit d then dec_digits l 0 else None
  | [] => None
  end.

(** [int(s)] for a string: surrounding whitespace, an optional sign. *)
Definition py_int_str (s : string) : option Z :=
  match list_ascii_of_string (strip s) with
  | "-"%char :: l => option_map Z.opp (unsigned_int l)
  | "+"%char :: l => unsigned_int l
  | l => unsigned_int l
  end.

(** [int(v)]; [None] when it raises. *)
Definition py_int (v : json) : option Z :=
  match v with
  | JInt z => Some z
  | JBool b => Some (if b then 1%Z else 0%Z)
  | JStr s => py_int_str s
  | _ => None
  end.

Definition POSTER_BASE : string := "https://jiotv.catchup.cdn.jio.com/dare_images/shows/".

(** A [programme] element of this script; its [title], [desc] and
    [category] texts are the decoded values themselves. *)
Record wprogramme := mk_wprogramme {
  wp_start : string; wp_stop : string; wp_channel : string;
  wp_title : json; wp_desc : json; wp_category : json;
  wp_episode : option string; wp_icon : option string }.

Inductive welement : Type :=
| WChannel (id name logo : string)
| WProgramme (p : wprogramme).

(** How the script ends: [FileNotFoundError] on the playlist (early
    [return]), an exception out of [tree.write] (the file is left
    truncated), or the document written. *)
Inductive woutcome : Type :=
| WAborted
| WWriteFailed
| WWritten (doc : list welement).

Section Script.

Variable utc_offset : Z.
Variable repr_container : json -> string.

(** [format_date(timestamp_ms)]; [None] when it raises. *)
Definition format_date (v : json) : option string :=
  match py_int v with
  | None => None
  | Some ms =>
      match fromtimestamp_ms utc_offset ms with
      | Some dt => Some (strftime_xmltv dt)
      | None => None
      end
  end.

Definition item_get (kvs : list (string * json)) (k : string) (default : json) : json :=
  match obj_get k kvs with Some v => v | None => default end.

(** One item of the loop: the appended element, or [None] when building
    its attributes raises (not a dict, missing key, bad timestamp). *)
Definition workflow_item (cid : string) (item : json) : option wprogramme :=
  match item with
  | JObj kvs =>
      match obj_get "startEpoch" kvs with
      | None => None
      | Some sv =>
          match format_date sv with
          | None => None
          | Some start =>
              match obj_get "endEpoch" kvs with
              | None => None
              | Some ev =>
                  match format_date ev with
                  | None => None
                  | Some stop =>
                      Some (mk_wprogramme start stop cid
                              (item_get kvs "showname" (JStr "No Title"))
                              (item_get kvs "description" (JStr EmptyString))
                              (item_get kvs "showCategory" (JStr "General"))
                              (match obj_get "episode_num" kvs with
                               | Some v => if truthy v then Some (py_str repr_container v) else None
                               | None => None end)
                              (match obj_get "episode_poster" kvs with
                               | Some v => if truthy v
                                           then Some (POSTER_BASE ++ py_str repr_container v)
                                           else None
                               | None => None end))
                  end
              end
          end
      end
  | _ => None
  end.

(** [for item in programmes]: the first raising item ends the loop (the
    [except] of the channel); the elements appended before it stay. *)
Fixpoint workflow_items (cid : string) (items : list json) : list wprogramme :=
  match items with
  | [] => []
  | it :: rest =>
      match workflow_item cid it with
      | None => []
      | Some p => p :: workflow_items cid rest
      end
  end.

(** The programmes one channel adds, from the response to its request. *)
Definition workflow_channel_programmes (cid : string) (r : response) : list wprogramme :=
  match r with
  | RHttp s (Some (JObj kvs)) =>
      if Z.eqb s 200 then
        match obj_get "epg" kvs with
        | None => []
        | Some (JArr l) => workflow_items cid l
        | Some (JObj m) => workflow_items cid (map (fun kv => JStr (fst kv)) m)
        | Some (JStr t) =>
            workflow_items cid (map (fun c => JStr (String c EmptyString)) (list_ascii_of_string t))
        | Some _ => []
        end
      else []
  | _ => []
  end.

(** The loop over the matches; [net i] answers the request of the [i]-th
    channel. *)
Fixpoint channel_elements (net : nat -> response) (i : nat)
    (chans : list (string * string * string)) : list welement :=
  match chans with
  | [] => []
  | (ch_id, ch_logo, ch_name) :: rest =>
      (WChannel ch_id (strip ch_name) ch_logo ::
       map WProgramme (workflow_channel_programmes ch_id (net i))) ++
      channel_elements net (S i) rest
  end.

(** [tree.write] serialises a text only when it is truthy, and raises on a
    truthy text that is not a string. *)
Definition text_ok (v : json) : bool :=
  match v with
  | JStr _ => true
  | _ => negb (truthy v)
  end.

Definition element_ok (e : welement) : bool :=
  match e with
  | WChannel _ _ _ => true
  | WProgramme p => text_ok (wp_title p) && text_ok (wp_desc p) && text_ok (wp_category p)
  end.

(** [generate_epg()]: [file] is the playlist's content, [None] when
    [open] raises [FileNotFoundError]. *)
Definition generate_epg (file : option string) (net : nat -> response) : woutcome :=
  match file with
  | None => WAborted
  | Some content =>
      let doc := channel_elements net 0 (findall_channels content) in
      if forallb element_ok doc then WWritten doc else WWriteFailed
  end.

End Script.

(** The value of a decimal digit string, read left to right. *)
Fixpoint uval (d : Decimal.uint) (acc : Z) : Z :=
  match d with
  | Decimal.Nil => acc
  | Decimal.D0 l => uval l (acc * 10 + 0)
  | Decimal.D1 l => uval l (acc * 10 + 1)
  | Decimal.D2 l => uval l (acc * 10 + 2)
  | Decimal.D3 l => uval l (acc * 10 + 3)
  | Decimal.D4 l => uval l (acc * 10 + 4)
  | Decimal.D5 l => uval l (acc * 10 + 5)
  | Decimal.D6 l => uval l (acc * 10 + 6)
  | Decimal.D7 l => uval l (acc * 10 + 7)
  | Decimal.D8 l => uval l (acc * 10 + 8)
  | Decimal.D9 l => uval l (acc * 10 + 9)
  end.

(** What the logo part of the pattern matches. *)
Definition logo_match (s logo name rem : string) : Prop :=
  logo <> EmptyString /\ contains_char dq logo = false /\
  contains_char "," name = false /\ contains_char nl name = false /\
  (exists pre, s = pre ++ String "," (name ++ rem)) /\
  (rem = EmptyString \/ exists r', rem = String nl r').

(** The elements written for one match: its [channel] element, then its
    programmes. *)
Definition block_elements (b : string * string * string * list wprogramme) : list welement :=
  match b with
  | (cid, logo, name, ps) => WChannel cid (strip name) logo :: map WProgramme ps
  end.

End Workflow.

(* ================================================================== *)
(** * Properties *)
(* ================================================================== *)

(** ** The retry loop *)

Lemma attempt_body_continue (a : nat) (r : response) :
  attempt_body a r = Continue -> retryable r = true /\ (a < MAX_RETRIES)%nat.
Proof.
  unfold attempt_body, on_exception, retryable.
  destruct r as [|s body].
  - destruct (Nat.ltb_spec a MAX_RETRIES); intros Hr; [auto | discriminate].
  - destruct (Z.eqb s 200).
    + destruct body; [discriminate|].
      destruct (Nat.ltb_spec a MAX_RETRIES); intros Hr; [auto | discriminate].
    + destruct (status_in s [404; 403]%Z); [discriminate|].
      destruct (status_in s [429; 450; 500; 502; 503]%Z); [|discriminate].
      destruct (Nat.ltb_spec a MAX_RETRIES); intros Hr; [auto | discriminate].
Qed.

Lemma attempt_body_return (a : nat) (r : response) (d : option json) :
  attempt_body a r = Return d ->
  d = payload_of r /\ (retryable r = false \/ (MAX_RETRIES <= a)%nat).
Proof.
  unfold attempt_body, on_exception, retryable.
  destruct r as [|s body].
  - destruct (Nat.ltb_spec a MAX_RETRIES); intros Hr; [discriminate|].
    injection Hr as <-; auto.
  - destruct (Z.eqb s 200) eqn:E200.
    + destruct body as [j|].
      * intros Hr; injection Hr as <-. simpl. rewrite E200. auto.
      * destruct (Nat.ltb_spec a MAX_RETRIES); intros Hr; [discriminate|].
        injection Hr as <-; auto.
    + assert (Hd : payload_of (RHttp s body) = None)
        by (destruct body; simpl; rewrite ?E200; reflexivity).
      rewrite Hd.
      destruct (status_in s [404; 403]%Z) eqn:E4.
      * intros Hr; injection Hr as <-. split; [reflexivity|].
        left. unfold status_in in E4; simpl in E4.
        destruct (Z.eqb_spec s 404) as [->|]; [reflexivity|].
        destruct (Z.eqb_spec s 403) as [->|]; [reflexivity|]. discriminate.
      * destruct (status_in s [429; 450; 500; 502; 503]%Z).
        -- destruct (Nat.ltb_spec a MAX_RETRIES); intros Hr; [discriminate|].
           injection Hr as <-; auto.
        -- intros Hr; injection Hr as <-; auto.
Qed.

Lemma attempt_body_last (r : response) : attempt_body MAX_RETRIES r <> Continue.
Proof.
  intros H. apply attempt_body_continue in H. destruct H as [_ H].
  unfold MAX_RETRIES in H. lia.
Qed.

(** The complete behaviour of the retry loop: [n] attempts, the sleeps
    between them, the responses that caused them, and the returned triple. *)
Lemma fetch_epg_spec (channel_id : string) (offset : Z) (resp : nat -> response) :
  let o := fetch_epg channel_id offset resp in
  let n := fo_attempts o in
  (1 <= n <= MAX_RETRIES)%nat /\
  fo_sleeps o = map (fun a => RETRY_DELAY * a) (seq 1 (n - 1)) /\
  (forall a, (1 <= a < n)%nat -> retryable (resp a) = true) /\
  ((n < MAX_RETRIES)%nat -> retryable (resp n) = false) /\
  fo_result o = Some (channel_id, offset, payload_of (resp n)).
Proof.
  unfold fetch_epg, MAX_RETRIES; simpl.
  destruct (attempt_body 1 (resp 1%nat)) as [d1|] eqn:E1.
  { apply attempt_body_return in E1 as [-> [Hr|Hr]]; [|unfold MAX_RETRIES in Hr; lia].
    simpl; repeat split; auto; intros; lia. }
  apply attempt_body_continue in E1 as [R1 _].
  destruct (attempt_body 2 (resp 2%nat)) as [d2|] eqn:E2.
  { apply attempt_body_return in E2 as [-> [Hr|Hr]]; [|unfold MAX_RETRIES in Hr; lia].
    simpl; repeat split; auto.
    intros a Ha; replace a with 1%nat by lia; exact R1. }
  apply attempt_body_continue in E2 as [R2 _].
  destruct (attempt_body 3 (resp 3%nat)) as [d3|] eqn:E3.
  - apply attempt_body_return in E3 as [-> _].
    simpl; repeat split; auto.
    + intros a Ha. destruct (Nat.eq_dec a 1) as [->|]; [exact R1|].
      replace a with 2%nat by lia; exact R2.
    + unfold MAX_RETRIES; intros; lia.
  - exfalso; exact (attempt_body_last _ E3).
Qed.

(** [fetch_epg] reached through [run_task] returns the task's own channel. *)
Lemma run_task_result (net : network) (t : task) :
  exists d, fo_result (run_task net t) = Some (t_cid t, t_offset t, d).
Proof.
  unfold run_task.
  destruct (fetch_epg_spec (t_cid t) (t_offset t) (net (t_index t))) as (_ & _ & _ & _ & ->).
  eauto.
Qed.

(** ** Collecting results *)

Lemma collect_skip (net : network) (t : task) (o1 o2 : list task) :
  collect_step net t = Some None ->
  collect net (o1 ++ t :: o2) = collect net (o1 ++ o2).
Proof.
  intros Ht. induction o1 as [|t1 o1 IH]; simpl.
  - rewrite Ht. destruct (collect net o2); reflexivity.
  - rewrite IH. reflexivity.
Qed.

Lemma status_404_403 (s : Z) : status_in s [404; 403]%Z = true -> s = 404%Z \/ s = 403%Z.
Proof.
  unfold status_in; simpl.
  destruct (Z.eqb_spec s 404); [auto|].
  destruct (Z.eqb_spec s 403); [auto|]. discriminate.
Qed.

(* ================================================================== *)
(** ** Claims on the fetch dispatcher *)
(* ================================================================== *)

(** C9: for every sequence of responses and transport exceptions,
    [fetch_epg] stops after at most [MAX_RETRIES] requests and returns a
    triple (never Python's implicit [None]) whose first two components are
    its [channel_id] and [offset] arguments; no exception leaves it (the
    embedding is total). *)
Theorem fetch_epg_total (channel_id : string) (offset : Z) (resp : nat -> response) :
  (1 <= fo_attempts (fetch_epg channel_id offset resp) <= MAX_RETRIES)%nat /\
  exists data, fo_result (fetch_epg channel_id offset resp) = Some (channel_id, offset, data).
Proof.
  destruct (fetch_epg_spec channel_id offset resp) as (Hn & _ & _ & _ & Hr).
  split; [exact Hn | eauto].
Qed.

(** C1 (counterexample): a 5xx status outside the retry list, here 504
    on every attempt, gets a single request and no retry. *)
Lemma fetch_epg_504_not_retried :
  fetch_epg "7" 0 (fun _ => RHttp 504 None) = mk_fetch_out (Some ("7", 0%Z, None)) 1 []
  /\ fo_attempts (fetch_epg "7" 0 (fun _ => RHttp 504 None)) <> MAX_RETRIES.
Proof. split; [reflexivity | discriminate]. Qed.

(** C1 (amended): the loop goes round again exactly on a transport
    exception, on a 200 whose body [r.json()] cannot decode, and on the
    statuses 429, 450, 500, 502 and 503 ([retryable]), for at most
    [MAX_RETRIES] = 3 requests, sleeping [RETRY_DELAY * attempt] seconds
    after attempt [attempt]; any other response ends the loop at once with
    its payload (a 200 body) or no data.  A task answered 500 every time
    makes 3 requests, sleeps 3 s and 6 s, and returns no data. *)
Theorem fetch_epg_retry_policy (channel_id : string) (offset : Z) (resp : nat -> response) :
  let o := fetch_epg channel_id offset resp in
  let n := fo_attempts o in
  (1 <= n <= MAX_RETRIES)%nat /\
  fo_sleeps o = map (fun a => RETRY_DELAY * a) (seq 1 (n - 1)) /\
  (forall a, (1 <= a < n)%nat -> retryable (resp a) = true) /\
  ((n < MAX_RETRIES)%nat -> retryable (resp n) = false) /\
  fo_result o = Some (channel_id, offset, payload_of (resp n)) /\
  (forall body, fetch_epg channel_id offset (fun _ => RHttp 500 body)
                = mk_fetch_out (Some (channel_id, offset, None)) 3 [3; 6]).
Proof.
  destruct (fetch_epg_spec channel_id offset resp) as (H1 & H2 & H3 & H4 & H5).
  repeat split; auto; try lia.
Qed.

(** C3: a task whose first response is 404 or 403 makes one request, does
    not sleep or retry, returns no data, adds no programme, and the run's
    outcome is the one it would have without that task. *)
Theorem fetch_epg_skip_404_403 (utc_offset : Z) (repr_container : json -> string)
    (file : m3u_file) (net : network) (o1 o2 : list task) (t : task)
    (s : Z) (body : option json) :
  status_in s [404; 403]%Z = true ->
  net (t_index t) 1%nat = RHttp s body ->
  run_task net t = mk_fetch_out (Some (t_cid t, t_offset t, None)) 1 [] /\
  task_programmes utc_offset repr_container net t = [] /\
  run_outcome (main utc_offset repr_container file net (o1 ++ t :: o2))
  = run_outcome (main utc_offset repr_container file net (o1 ++ o2)).
Proof.
  intros Hs Hnet.
  assert (Hrun : run_task net t = mk_fetch_out (Some (t_cid t, t_offset t, None)) 1 []).
  { unfold run_task, fetch_epg, MAX_RETRIES; simpl. rewrite Hnet.
    destruct (status_404_403 s Hs) as [-> | ->]; reflexivity. }
  assert (Hstep : collect_step net t = Some None)
    by (unfold collect_step; rewrite Hrun; reflexivity).
  split; [exact Hrun|]. split.
  - unfold task_programmes. rewrite Hstep. reflexivity.
  - unfold main. destruct (parse_m3u file); [reflexivity|].
    rewrite (collect_skip net t o1 o2 Hstep). reflexivity.
Qed.

Lemma fetch_epg_skip_404_403_witness :
  status_in 404 [404; 403]%Z = true /\
  (fun (_ : nat) (_ : nat) => RHttp 404 None) 1%nat 1%nat = RHttp 404 None /\
  run_task (fun _ _ => RHttp 404 None) (mk_task 1 "7" 0)
  = mk_fetch_out (Some ("7", 0%Z, None)) 1 [] /\
  task_programmes 0 (fun _ => EmptyString) (fun _ _ => RHttp 404 None) (mk_task 1 "7" 0) = [] /\
  run_outcome (main 0 (fun _ => EmptyString) (Some [ex_line]) (fun _ _ => RHttp 404 None)
                    ([] ++ mk_task 1 "7" 0 :: [mk_task 2 "7" 1]))
  = run_outcome (main 0 (fun _ => EmptyString) (Some [ex_line]) (fun _ _ => RHttp 404 None)
                      ([] ++ [mk_task 2 "7" 1])).
Proof.
  split; [reflexivity|]. split; [reflexivity|].
  exact (fetch_epg_skip_404_403 0 (fun _ => EmptyString) (Some [ex_line])
           (fun _ _ => RHttp 404 None) [] [mk_task 2 "7" 1] (mk_task 1 "7" 0)
           404 None eq_refl eq_refl).
Defined.

(* ================================================================== *)
(** ** The source loader *)
(* ================================================================== *)

Lemma parse_lines_acc (lines : list string) (acc : list channel) :
  fold_left (fun channels line =>
               match parse_line line with
               | Some ch => (channels ++ [ch])%list
               | None => channels
               end) lines acc
  = (acc ++ flat_map (fun l => match parse_line l with Some c => [c] | None => [] end) lines)%list.
Proof.
  revert acc; induction lines as [|l lines IH]; intros acc; simpl.
  - rewrite app_nil_r. reflexivity.
  - rewrite IH. destruct (parse_line l); simpl.
    + rewrite <- app_assoc. reflexivity.
    + reflexivity.
Qed.

Lemma after_first_split (c : ascii) (a b : string) :
  contains_char c a = false -> after_first c (a ++ String c b) = b.
Proof.
  induction a as [|c' a IH]; simpl.
  - rewrite Ascii.eqb_refl. reflexivity.
  - intros H. apply orb_false_iff in H as [H1 H2]. rewrite H1. auto.
Qed.

Lemma contains_char_split (c : ascii) (a b : string) :
  contains_char c (a ++ String c b) = true.
Proof.
  induction a as [|c' a IH]; simpl.
  - rewrite Ascii.eqb_refl. reflexivity.
  - rewrite IH, orb_true_r. reflexivity.
Qed.

Lemma prefix_split (key s : string) :
  String.prefix key s = true ->
  s = key ++ substring (String.length key) (String.length s - String.length key) s.
Proof.
  revert s; induction key as [|k key IH]; intros s H; simpl.
  - rewrite Nat.sub_0_r. destruct s; simpl; [reflexivity|].
    f_equal. clear H. induction s as [|c s IHs]; simpl; [reflexivity|]. f_equal; exact IHs.
  - destruct s as [|c s]; [discriminate|]. simpl in H.
    destruct (ascii_dec k c) as [->|]; [|discriminate].
    f_equal. exact (IH s H).
Qed.

Lemma span_nonquote_split (s v r : string) :
  span_nonquote s = (v, r) ->
  s = v ++ r /\ contains_char dq v = false /\
  (r = EmptyString \/ exists r', r = String dq r').
Proof.
  revert v r; induction s as [|c s IH]; intros v r H; simpl in H.
  - injection H as <- <-. auto.
  - destruct (Ascii.eqb_spec c dq) as [->|Hc].
    + injection H as <- <-. simpl. eauto.
    + destruct (span_nonquote s) as [v' r'] eqn:E.
      injection H as <- <-.
      destruct (IH v' r' eq_refl) as (-> & Hv & Hr).
      split; [reflexivity|]. split; [|exact Hr].
      change ((Ascii.eqb dq c || contains_char dq v')%bool = false).
      rewrite Hv, orb_false_r. apply Ascii.eqb_neq. congruence.
Qed.

Lemma match_attr_at_sound (key s v : string) :
  match_attr_at key s = Some v ->
  exists post, s = key ++ v ++ String dq post /\
               v <> EmptyString /\ contains_char dq v = false.
Proof.
  unfold match_attr_at. destruct (String.prefix key s) eqn:Hp; [|discriminate].
  pose proof (prefix_split key s Hp) as Hs.
  set (rest := substring (String.length key) (String.length s - String.length key) s) in *.
  destruct (span_nonquote rest) as [v' r] eqn:Hspan.
  apply span_nonquote_split in Hspan as (Hsplit & Hv & _).
  destruct v' as [|x v'']; [discriminate|].
  destruct r as [|q post]; [discriminate|].
  destruct (Ascii.eqb_spec q dq) as [->|]; [|discriminate].
  intros E; injection E as <-. exists post.
  rewrite Hs, Hsplit. repeat split; auto. discriminate.
Qed.

(** What [re.search] returns is a real match: the key, a non-empty group
    without double quotes, then a double quote. *)
Lemma re_search_attr_sound (key s g : string) :
  re_search_attr key s = Some g ->
  exists pre post, s = pre ++ key ++ g ++ String dq post /\
                   g <> EmptyString /\ contains_char dq g = false.
Proof.
  revert g; induction s as [|c s IH]; intros g H; simpl in H.
  - destruct (match_attr_at key EmptyString) as [v|] eqn:E; [|discriminate].
    injection H as <-. apply match_attr_at_sound in E as (post & Hs & Hg).
    exists EmptyString, post. auto.
  - destruct (match_attr_at key (String c s)) as [v|] eqn:E.
    + injection H as <-. apply match_attr_at_sound in E as (post & Hs & Hg).
      exists EmptyString, post. auto.
    + destruct (IH g H) as (pre & post & -> & Hg & Hq).
      exists (String c pre), post. auto.
Qed.

(** C4 (counterexample): on a line whose display name contains a comma the
    name is not the text after the last comma ([" Live"], stripped
    ["Live"]) but everything after the first one. *)
Lemma parse_line_name_not_after_last_comma :
  ex_line = ("#EXTINF:-1 tvg-id=" ++ String dq "7" ++ String dq EmptyString ++
             " tvg-logo=" ++ String dq "l.png" ++ String dq EmptyString ++ ",News")
            ++ "," ++ " Live" /\
  contains_char "," " Live" = false /\
  exists ch, parse_line ex_line = Some ch /\ ch_name ch = "News, Live" /\
             ch_name ch <> " Live" /\ ch_name ch <> "Live".
Proof.
  split; [reflexivity|]. split; [reflexivity|].
  exists (mk_channel "7" "News, Live" "l.png").
  repeat split; try reflexivity; simpl; discriminate.
Qed.

(** C4 (amended): the display name of a loaded channel is the text after
    the FIRST comma of the stripped line, itself stripped, and
    ["Unknown"] when the line has no comma. *)
Theorem parse_line_name_after_first_comma (line : string) (ch : channel) :
  parse_line line = Some ch ->
  (forall a b, strip line = a ++ "," ++ b -> contains_char "," a = false ->
               ch_name ch = strip b) /\
  (contains_char "," (strip line) = false -> ch_name ch = "Unknown").
Proof.
  unfold parse_line.
  destruct (startswith "#EXTINF" (strip line)); [|discriminate].
  destruct (re_search_attr tvg_id_key (strip line)); [|discriminate].
  intros H; injection H as <-; simpl. split.
  - intros a b Hs Ha. rewrite Hs.
    change ("," ++ b) with (String "," b).
    rewrite contains_char_split, after_first_split by exact Ha. reflexivity.
  - intros Hc. rewrite Hc. reflexivity.
Qed.

Lemma parse_line_name_after_first_comma_witness :
  parse_line ex_line = Some (mk_channel "7" "News, Live" "l.png") /\
  (forall a b, strip ex_line = a ++ "," ++ b -> contains_char "," a = false ->
               ch_name (mk_channel "7" "News, Live" "l.png") = strip b) /\
  (contains_char "," (strip ex_line) = false ->
   ch_name (mk_channel "7" "News, Live" "l.png") = "Unknown").
Proof.
  split; [reflexivity|].
  apply (parse_line_name_after_first_comma ex_line); reflexivity.
Defined.

Definition bare_id_line : string := "tvg-id=" ++ String dq "5" ++ String dq ",Five".

(** C6 (counterexample): a line carrying the identifier attribute but not
    starting with [#EXTINF] yields no channel. *)
Lemma parse_m3u_ignores_non_extinf :
  re_search_attr tvg_id_key bare_id_line = Some "5" /\
  parse_m3u (Some [bare_id_line]) = [].
Proof. split; reflexivity. Qed.

(** C6 (amended): the channels are the lines' [parse_line] results in file
    order, one per line; a line gives a channel exactly when, once
    stripped, it starts with [#EXTINF] and contains the [tvg-id] attribute
    with a non-empty quoted value, and the channel's identifier is the
    first such value, stripped. *)
Theorem parse_m3u_channels (lines : list string) :
  parse_m3u (Some lines)
  = flat_map (fun l => match parse_line l with Some c => [c] | None => [] end) lines /\
  (forall l g, startswith "#EXTINF" (strip l) = true ->
               re_search_attr tvg_id_key (strip l) = Some g ->
               exists ch, parse_line l = Some ch /\ ch_id ch = strip g /\
               exists pre post, strip l = pre ++ tvg_id_key ++ g ++ String dq post /\
                                g <> EmptyString /\ contains_char dq g = false) /\
  (forall l, startswith "#EXTINF" (strip l) = false \/
             re_search_attr tvg_id_key (strip l) = None ->
             parse_line l = None).
Proof.
  split; [|split].
  - simpl. unfold parse_lines. rewrite parse_lines_acc. reflexivity.
  - intros l g Hs Hg. unfold parse_line. rewrite Hs, Hg.
    eexists; split; [reflexivity|]. split; [reflexivity|].
    exact (re_search_attr_sound _ _ _ Hg).
  - intros l [Hs|Hg]; unfold parse_line.
    + rewrite Hs. reflexivity.
    + rewrite Hg. destruct (startswith "#EXTINF" (strip l)); reflexivity.
Qed.

(* ================================================================== *)
(** ** The document builder *)
(* ================================================================== *)

Lemma sappend_assoc (a b c : string) : (a ++ b) ++ c = a ++ b ++ c.
Proof. induction a as [|x a IH]; simpl; [reflexivity | now rewrite IH]. Qed.

Lemma slength_app (a b : string) : String.length (a ++ b) = (String.length a + String.length b)%nat.
Proof. induction a as [|x a IH]; simpl; [reflexivity | now rewrite IH]. Qed.

Lemma all_digits_app (a b : string) : all_digits (a ++ b) = all_digits a && all_digits b.
Proof.
  induction a as [|x a IH]; simpl; [reflexivity|]. rewrite IH. apply andb_assoc.
Qed.

Lemma digits_length (w : nat) (n : Z) : String.length (digits w n) = w.
Proof.
  revert n; induction w as [|w IH]; intros n; simpl; [reflexivity|].
  rewrite slength_app, IH. simpl. lia.
Qed.

Lemma is_digit_of (k : nat) : (k < 10)%nat -> is_digit (ascii_of_nat (48 + k)) = true.
Proof.
  intros Hk. unfold is_digit. rewrite nat_ascii_embedding by lia.
  apply andb_true_intro; split; apply Nat.leb_le; lia.
Qed.

Lemma digits_all (w : nat) (n : Z) : all_digits (digits w n) = true.
Proof.
  revert n; induction w as [|w IH]; intros n; [reflexivity|].
  change (digits (S w) n) with
    (digits w (n / 10) ++ String (ascii_of_nat (48 + Z.to_nat (n mod 10))) EmptyString).
  rewrite all_digits_app, IH.
  change (all_digits (String (ascii_of_nat (48 + Z.to_nat (n mod 10))) EmptyString))
    with (is_digit (ascii_of_nat (48 + Z.to_nat (n mod 10))) && true).
  pose proof (Z.mod_pos_bound n 10 ltac:(lia)) as Hb.
  rewrite is_digit_of by lia. reflexivity.
Qed.

(** Every [start]/[stop] attribute is fourteen digits followed by the
    fixed offset [ +0530]. *)
Lemma strftime_xmltv_shape (dt : datetime) :
  exists d, strftime_xmltv dt = d ++ " +0530" /\
            String.length d = 14%nat /\ all_digits d = true.
Proof.
  unfold strftime_xmltv.
  exists (digits 4 (dt_year dt) ++ digits 2 (dt_month dt) ++ digits 2 (dt_day dt) ++
          digits 2 (dt_hour dt) ++ digits 2 (dt_minute dt) ++ digits 2 (dt_second dt)).
  split; [rewrite !sappend_assoc; reflexivity|]. split.
  - rewrite !slength_app, !digits_length. reflexivity.
  - rewrite !all_digits_app, !digits_all. reflexivity.
Qed.

Section Builder.

Variable utc_offset : Z.
Variable repr_container : json -> string.

Lemma entry_step_spec (cid : string) (p : json) (o : option programme) :
  entry_step utc_offset repr_container cid p = Some o ->
  match entry_times utc_offset p with
  | None => o = None
  | Some (start, stop) =>
      exists pr, o = Some pr /\ pr_start pr = strftime_xmltv start /\
                 pr_stop pr = strftime_xmltv stop /\ pr_channel pr = cid
  end.
Proof.
  unfold entry_step.
  destruct (entry_times utc_offset p) as [[start stop]|].
  - destruct (entry_get p "episodePoster") as [poster|].
    + destruct (truthy poster).
      * destruct poster; try discriminate.
        intros H; injection H as <-. eexists; repeat split; reflexivity.
      * intros H; injection H as <-. eexists; repeat split; reflexivity.
    + intros H; injection H as <-. eexists; repeat split; reflexivity.
  - intros H; injection H as <-. reflexivity.
Qed.

End Builder.

(** When the entry loop of a payload runs to its end, it appends
    exactly one programme per entry whose [startEpoch] and [endEpoch] give
    valid datetimes, in entry order, with [start]/[stop] rendered by
    [strftime_xmltv] (fourteen digits [YYYYMMDDHHMMSS] and [ +0530]) and
    the task's channel; every other entry is dropped. *)
Theorem build_entries_programmes (utc_offset : Z) (repr_container : json -> string)
    (cid : string) (es : list json) (ps : list programme) :
  build_entries utc_offset repr_container cid es = Some ps ->
  Forall2 (fun p pr => exists start stop,
             entry_times utc_offset p = Some (start, stop) /\
             pr_start pr = strftime_xmltv start /\ pr_stop pr = strftime_xmltv stop /\
             pr_channel pr = cid)
          (filter (fun p => match entry_times utc_offset p with
                            | Some _ => true | None => false end) es) ps /\
  Forall (fun pr => exists d1 d2,
             pr_start pr = d1 ++ " +0530" /\ pr_stop pr = d2 ++ " +0530" /\
             String.length d1 = 14%nat /\ String.length d2 = 14%nat /\
             all_digits d1 = true /\ all_digits d2 = true) ps.
Proof.
  revert ps; induction es as [|p es IH]; intros ps H; simpl in H.
  - injection H as <-. simpl. split; constructor.
  - destruct (entry_step utc_offset repr_container cid p) as [o|] eqn:Ep; [|discriminate].
    destruct (build_entries utc_offset repr_container cid es) as [qs|] eqn:Eq; [|discriminate].
    injection H as <-. destruct (IH qs eq_refl) as [IH1 IH2].
    apply entry_step_spec in Ep. simpl.
    destruct (entry_times utc_offset p) as [[start stop]|] eqn:Et.
    + destruct Ep as (pr & -> & Hs & Ht & Hc). split.
      * constructor; [|exact IH1]. exists start, stop. auto.
      * constructor; [|exact IH2].
        destruct (strftime_xmltv_shape start) as (d1 & H1 & L1 & D1).
        destruct (strftime_xmltv_shape stop) as (d2 & H2 & L2 & D2).
        exists d1, d2. rewrite Hs, Ht. repeat split; assumption.
    + subst o. auto.
Qed.

Definition ex_entry : json :=
  JObj [("startEpoch", JInt 1700000000000); ("endEpoch", JInt 1700001800000);
        ("showname", JStr "Test Show")].

Lemma build_entries_programmes_witness :
  build_entries 0 (fun _ => EmptyString) "101" [ex_entry; JStr "x"]
  = Some [mk_programme "20231114221320 +0530" "20231114224320 +0530" "101"
                       "Test Show" EmptyString None None] /\
  Forall2 (fun p pr => exists start stop,
             entry_times 0 p = Some (start, stop) /\
             pr_start pr = strftime_xmltv start /\ pr_stop pr = strftime_xmltv stop /\
             pr_channel pr = "101")
          (filter (fun p => match entry_times 0 p with
                            | Some _ => true | None => false end) [ex_entry; JStr "x"])
          [mk_programme "20231114221320 +0530" "20231114224320 +0530" "101"
                        "Test Show" EmptyString None None] /\
  Forall (fun pr => exists d1 d2,
             pr_start pr = d1 ++ " +0530" /\ pr_stop pr = d2 ++ " +0530" /\
             String.length d1 = 14%nat /\ String.length d2 = 14%nat /\
             all_digits d1 = true /\ all_digits d2 = true)
         [mk_programme "20231114221320 +0530" "20231114224320 +0530" "101"
                       "Test Show" EmptyString None None].
Proof.
  split; [vm_compute; reflexivity|].
  apply (build_entries_programmes 0 (fun _ => EmptyString) "101" [ex_entry; JStr "x"]).
  vm_compute; reflexivity.
Defined.

(* ================================================================== *)
(** ** The whole run *)
(* ================================================================== *)

Lemma main_written (utc_offset : Z) (repr_container : json -> string)
    (file : m3u_file) (net : network) (order : list task) (doc : list element) :
  run_outcome (main utc_offset repr_container file net order) = Written doc ->
  exists rs progs, parse_m3u file <> [] /\
    collect net order = Some rs /\
    build_results utc_offset repr_container rs = Some progs /\
    doc = (map channel_element (parse_m3u file) ++ map EProgramme progs)%list.
Proof.
  unfold main. destruct (parse_m3u file) as [|ch chs]; [discriminate|].
  destruct (collect net order) as [rs|]; [|discriminate].
  destruct (build_results utc_offset repr_container rs) as [progs|] eqn:E; [|discriminate].
  simpl. intros H; injection H as <-. exists rs, progs. repeat split; auto. discriminate.
Qed.

Lemma collect_channels (net : network) (order : list task) (rs : list (string * json)) :
  collect net order = Some rs ->
  forall r, In r rs -> exists t, In t order /\ fst r = t_cid t.
Proof.
  revert rs; induction order as [|t order IH]; intros rs H r Hr; simpl in H.
  - injection H as <-. destruct Hr.
  - destruct (collect_step net t) as [o|] eqn:Es; [|discriminate].
    destruct (collect net order) as [rs'|]; [|discriminate].
    injection H as <-.
    assert (Hrest : In r rs' -> exists t', In t' (t :: order) /\ fst r = t_cid t')
      by (intros Hin; destruct (IH rs' eq_refl r Hin) as (t' & ? & ?); exists t'; simpl; auto).
    destruct o as [[cid j]|]; [|exact (Hrest Hr)].
    destruct Hr as [<- | Hin]; [|exact (Hrest Hin)].
    exists t. split; [left; reflexivity|].
    unfold collect_step in Es. destruct (run_task_result net t) as (d & Hd).
    rewrite Hd in Es. destruct (skip_payload d) as [[|]|]; try discriminate.
    destruct d; [|discriminate]. injection Es as -> _. reflexivity.
Qed.

Lemma build_entries_channel (utc_offset : Z) (repr_container : json -> string)
    (cid : string) (es : list json) (ps : list programme) :
  build_entries utc_offset repr_container cid es = Some ps ->
  forall p, In p ps -> pr_channel p = cid.
Proof.
  revert ps; induction es as [|e es IH]; intros ps H p Hp; simpl in H.
  - injection H as <-. destruct Hp.
  - destruct (entry_step utc_offset repr_container cid e) as [o|] eqn:Ee; [|discriminate].
    destruct (build_entries utc_offset repr_container cid es) as [qs|]; [|discriminate].
    injection H as <-. apply entry_step_spec in Ee.
    destruct (entry_times utc_offset e) as [[start stop]|].
    + destruct Ee as (pr & -> & _ & _ & Hc).
      destruct Hp as [<- | Hp]; [exact Hc | exact (IH qs eq_refl p Hp)].
    + subst o. exact (IH qs eq_refl p Hp).
Qed.

Lemma build_results_channels (utc_offset : Z) (repr_container : json -> string)
    (rs : list (string * json)) (ps : list programme) :
  build_results utc_offset repr_container rs = Some ps ->
  forall p, In p ps -> exists r, In r rs /\ pr_channel p = fst r.
Proof.
  revert ps; induction rs as [|[cid j] rs IH]; intros ps H p Hp; simpl in H.
  - injection H as <-. destruct Hp.
  - destruct (schedule_of j) as [es|]; [|discriminate].
    destruct (build_entries utc_offset repr_container cid es) as [ps1|] eqn:E1; [|discriminate].
    destruct (build_results utc_offset repr_container rs) as [qs|]; [|discriminate].
    injection H as <-. apply in_app_or in Hp as [Hp|Hp].
    + exists (cid, j). split; [left; reflexivity|].
      exact (build_entries_channel _ _ _ _ _ E1 p Hp).
    + destruct (IH qs eq_refl p Hp) as (r & Hr & Hc). exists r. simpl. auto.
Qed.

Lemma number_tasks_in (i : nat) (l : list (string * Z)) (t : task) :
  In t (number_tasks i l) -> In (t_cid t, t_offset t) l.
Proof.
  revert i; induction l as [|[cid off] l IH]; intros i H; simpl in H; [destruct H|].
  destruct H as [<- | H]; simpl; [left; reflexivity | right; exact (IH _ H)].
Qed.

Lemma tasks_channels (chs : list channel) (t : task) :
  In t (tasks chs) -> exists ch, In ch chs /\ t_cid t = ch_id ch.
Proof.
  unfold tasks. intros H. apply number_tasks_in in H.
  apply in_flat_map in H as (off & _ & H). apply in_map_iff in H as (ch & Hch & Hin).
  injection Hch as Hc _. exists ch. auto.
Qed.

Lemma parse_lines_none (lines : list string) :
  (forall l, In l lines -> parse_line l = None) -> parse_m3u (Some lines) = [].
Proof.
  intros H. simpl. unfold parse_lines. rewrite parse_lines_acc. simpl.
  induction lines as [|l lines IH]; [reflexivity|]. simpl.
  rewrite (H l (or_introl eq_refl)). apply IH. intros l' Hl'. apply H. right. exact Hl'.
Qed.

(** C7: whatever the network answers, every programme element of a written
    document carries the identifier of a channel loaded from the playlist:
    the [channel] attribute is the task's [ch["id"]] echoed back by
    [fetch_epg], never a value read from the payload. *)
Theorem programme_channels_loaded (utc_offset : Z) (repr_container : json -> string)
    (file : m3u_file) (net : network) (order : list task) (doc : list element) :
  Permutation order (tasks (parse_m3u file)) ->
  run_outcome (main utc_offset repr_container file net order) = Written doc ->
  forall p, In (EProgramme p) doc ->
  exists ch, In ch (parse_m3u file) /\ pr_channel p = ch_id ch.
Proof.
  intros Hperm Hrun p Hp.
  destruct (main_written _ _ _ _ _ _ Hrun) as (rs & progs & _ & Hc & Hb & ->).
  apply in_app_or in Hp as [Hp|Hp].
  - apply in_map_iff in Hp as (ch & Hch & _). unfold channel_element in Hch. discriminate.
  - apply in_map_iff in Hp as (p' & Hp' & Hin). injection Hp' as ->.
    destruct (build_results_channels _ _ _ _ Hb p Hin) as (r & Hr & Hpc).
    destruct (collect_channels _ _ _ Hc r Hr) as (t & Ht & Htc).
    apply (Permutation_in _ Hperm) in Ht.
    destruct (tasks_channels _ _ Ht) as (ch & Hch & Hid).
    exists ch. split; [exact Hch | congruence].
Qed.

Definition ex_file : m3u_file := Some ["#EXTM3U"; ex_line].

(** A payload that names another channel (999) than the one asked for. *)
Definition ex_payload : json :=
  JObj [("channel_id", JInt 999); ("epg", JArr [ex_entry])].

Definition ex_net : network :=
  fun i _ => if Nat.eqb i 1 then RHttp 200 (Some ex_payload) else RHttp 404 None.

Lemma programme_channels_loaded_witness :
  Permutation (rev (tasks (parse_m3u ex_file))) (tasks (parse_m3u ex_file)) /\
  run_outcome (main 0 (fun _ => EmptyString) ex_file ex_net (rev (tasks (parse_m3u ex_file))))
  = Written [EChannel "7" "News, Live" (Some "l.png");
             EProgramme (mk_programme "20231114221320 +0530" "20231114224320 +0530" "7"
                                      "Test Show" EmptyString None None)] /\
  exists ch, In ch (parse_m3u ex_file) /\
             pr_channel (mk_programme "20231114221320 +0530" "20231114224320 +0530" "7"
                                      "Test Show" EmptyString None None) = ch_id ch.
Proof.
  assert (Hp : Permutation (rev (tasks (parse_m3u ex_file))) (tasks (parse_m3u ex_file)))
    by (apply Permutation_sym, Permutation_rev).
  assert (Hr : run_outcome (main 0 (fun _ => EmptyString) ex_file ex_net
                                 (rev (tasks (parse_m3u ex_file))))
               = Written [EChannel "7" "News, Live" (Some "l.png");
                          EProgramme (mk_programme "20231114221320 +0530"
                                        "20231114224320 +0530" "7"
                                        "Test Show" EmptyString None None)])
    by (vm_compute; reflexivity).
  split; [exact Hp|]. split; [exact Hr|].
  apply (programme_channels_loaded 0 (fun _ => EmptyString) ex_file ex_net _ _ Hp Hr).
  right; left; reflexivity.
Defined.

(** C8: any two runs over the same playlist that write a document (whatever
    the time zone, the network answers and the completion order) write the
    same channel elements, one per loaded channel in playlist order, and
    every element after them is a programme. *)
Theorem channel_elements_stable (file : m3u_file)
    (u1 u2 : Z) (r1 r2 : json -> string) (net1 net2 : network)
    (order1 order2 : list task) (doc1 doc2 : list element) :
  run_outcome (main u1 r1 file net1 order1) = Written doc1 ->
  run_outcome (main u2 r2 file net2 order2) = Written doc2 ->
  exists ps1 ps2,
    doc1 = (map channel_element (parse_m3u file) ++ map EProgramme ps1)%list /\
    doc2 = (map channel_element (parse_m3u file) ++ map EProgramme ps2)%list.
Proof.
  intros H1 H2.
  destruct (main_written _ _ _ _ _ _ H1) as (rs1 & ps1 & _ & _ & _ & ->).
  destruct (main_written _ _ _ _ _ _ H2) as (rs2 & ps2 & _ & _ & _ & ->).
  eauto.
Qed.

Lemma channel_elements_stable_witness :
  run_outcome (main 0 (fun _ => EmptyString) ex_file ex_net (tasks (parse_m3u ex_file)))
  = Written [EChannel "7" "News, Live" (Some "l.png");
             EProgramme (mk_programme "20231114221320 +0530" "20231114224320 +0530" "7"
                                      "Test Show" EmptyString None None)] /\
  run_outcome (main 19800 (fun _ => EmptyString) ex_file (fun _ _ => RExc)
                    (rev (tasks (parse_m3u ex_file))))
  = Written [EChannel "7" "News, Live" (Some "l.png")] /\
  exists ps1 ps2,
    [EChannel "7" "News, Live" (Some "l.png");
     EProgramme (mk_programme "20231114221320 +0530" "20231114224320 +0530" "7"
                              "Test Show" EmptyString None None)]
    = (map channel_element (parse_m3u ex_file) ++ map EProgramme ps1)%list /\
    [EChannel "7" "News, Live" (Some "l.png")]
    = (map channel_element (parse_m3u ex_file) ++ map EProgramme ps2)%list.
Proof.
  assert (H1 : run_outcome (main 0 (fun _ => EmptyString) ex_file ex_net
                                 (tasks (parse_m3u ex_file)))
               = Written [EChannel "7" "News, Live" (Some "l.png");
                          EProgramme (mk_programme "20231114221320 +0530"
                                        "20231114224320 +0530" "7"
                                        "Test Show" EmptyString None None)])
    by (vm_compute; reflexivity).
  assert (H2 : run_outcome (main 19800 (fun _ => EmptyString) ex_file (fun _ _ => RExc)
                                 (rev (tasks (parse_m3u ex_file))))
               = Written [EChannel "7" "News, Live" (Some "l.png")])
    by (vm_compute; reflexivity).
  split; [exact H1|]. split; [exact H2|].
  exact (channel_elements_stable _ _ _ _ _ _ _ _ _ _ _ H1 H2).
Defined.

(** C10: a playlist file that exists but has no line giving a channel ends
    the run at the early [return], with no request and no file, as a
    missing file does. *)
Theorem main_aborts_without_channels (utc_offset : Z) (repr_container : json -> string)
    (lines : list string) (net : network) (order : list task) :
  (forall l, In l lines -> parse_line l = None) ->
  main utc_offset repr_container (Some lines) net order = mk_run Aborted 0 /\
  main utc_offset repr_container None net order = mk_run Aborted 0.
Proof.
  intros H. unfold main. rewrite (parse_lines_none lines H). split; reflexivity.
Qed.

Lemma main_aborts_without_channels_witness :
  (forall l, In l ["#EXTM3U"; bare_id_line] -> parse_line l = None) /\
  main 0 (fun _ => EmptyString) (Some ["#EXTM3U"; bare_id_line]) ex_net [] = mk_run Aborted 0 /\
  main 0 (fun _ => EmptyString) None ex_net [] = mk_run Aborted 0.
Proof.
  assert (H : forall l, In l ["#EXTM3U"; bare_id_line] -> parse_line l = None)
    by (intros l [<- | [<- | []]]; reflexivity).
  split; [exact H|].
  exact (main_aborts_without_channels 0 (fun _ => EmptyString) _ ex_net [] H).
Defined.

Lemma payload_of_200 (r : response) (j : json) :
  payload_of r = Some j -> r = RHttp 200 (Some j).
Proof.
  destruct r as [|s [b|]]; simpl; try discriminate.
  destruct (Z.eqb_spec s 200) as [->|]; [|discriminate]. intros H; injection H as ->. reflexivity.
Qed.

Lemma collect_build_handled (utc_offset : Z) (repr_container : json -> string)
    (net : network) (order : list task) :
  (forall t, In t order -> task_handled utc_offset repr_container net t = true) ->
  exists rs, collect net order = Some rs /\
    build_results utc_offset repr_container rs
    = Some (flat_map (task_programmes utc_offset repr_container net) order).
Proof.
  induction order as [|t order IH]; intros Hok; simpl; [eauto|].
  destruct IH as (rs & Hc & Hb); [intros t' Ht'; apply Hok; right; exact Ht'|].
  pose proof (Hok t (or_introl eq_refl)) as Ht. unfold task_handled in Ht.
  unfold task_programmes at 1.
  destruct (collect_step net t) as [[[cid j]|]|]; [|exists rs; rewrite Hc; auto|discriminate].
  destruct (schedule_of j) as [es|] eqn:Hes; [|discriminate].
  destruct (build_entries utc_offset repr_container cid es) as [ps|] eqn:Hps; [|discriminate].
  exists ((cid, j) :: rs). rewrite Hc. split; [reflexivity|].
  simpl. rewrite Hes, Hps, Hb. reflexivity.
Qed.

Lemma task_programmes_failed (utc_offset : Z) (repr_container : json -> string)
    (net : network) (t : task) :
  fo_result (run_task net t) = None -> task_programmes utc_offset repr_container net t = [].
Proof. intros H. unfold task_programmes, collect_step. rewrite H. reflexivity. Qed.

(** C5 (counterexample): the playlist file exists, yet the run stops at
    the early [return] and writes no output, because no channel loads. *)
Lemma main_existing_file_no_output :
  ex_file <> None /\
  main 0 (fun _ => EmptyString) (Some ["#EXTM3U"; bare_id_line]) ex_net [] = mk_run Aborted 0.
Proof. split; [discriminate | reflexivity]. Qed.

(** C5 (amended): a missing playlist file, or one from which no channel
    loads, ends the run before any request with no file written.  Once a
    channel loads, and every task's outcome is one [main] handles without
    raising ([task_handled]), the document is written: the channels, then
    the programmes each task contributes, where a task whose fetch failed,
    was skipped or exhausted its retries contributes none. *)
Theorem main_best_effort (utc_offset : Z) (repr_container : json -> string)
    (file : m3u_file) (net : network) (order : list task) :
  main utc_offset repr_container None net order = mk_run Aborted 0 /\
  (parse_m3u file = [] -> main utc_offset repr_container file net order = mk_run Aborted 0) /\
  (parse_m3u file <> [] ->
   (forall t, In t order -> task_handled utc_offset repr_container net t = true) ->
   run_outcome (main utc_offset repr_container file net order)
   = Written (map channel_element (parse_m3u file) ++
              map EProgramme (flat_map (task_programmes utc_offset repr_container net) order))%list /\
   (forall t, fo_result (run_task net t) = None ->
    task_programmes utc_offset repr_container net t = [])).
Proof.
  split; [reflexivity|]. split.
  - intros H. unfold main. rewrite H. reflexivity.
  - intros H Hok. split; [|apply task_programmes_failed].
    unfold main.
    destruct (collect_build_handled utc_offset repr_container net order Hok) as (rs & Hc & Hb).
    destruct (parse_m3u file) as [|ch chs]; [congruence|].
    rewrite Hc, Hb. reflexivity.
Qed.

Lemma main_best_effort_witness :
  parse_m3u ex_file <> [] /\
  (forall t, In t (tasks (parse_m3u ex_file)) ->
   task_handled 0 (fun _ => EmptyString) ex_net t = true) /\
  run_outcome (main 0 (fun _ => EmptyString) ex_file ex_net (tasks (parse_m3u ex_file)))
  = Written (map channel_element (parse_m3u ex_file) ++
             map EProgramme (flat_map (task_programmes 0 (fun _ => EmptyString) ex_net)
                                      (tasks (parse_m3u ex_file))))%list /\
  (forall t, fo_result (run_task ex_net t) = None ->
   task_programmes 0 (fun _ => EmptyString) ex_net t = []).
Proof.
  assert (H1 : parse_m3u ex_file <> []) by (vm_compute; discriminate).
  assert (H2 : forall t, In t (tasks (parse_m3u ex_file)) ->
                         task_handled 0 (fun _ => EmptyString) ex_net t = true).
  { apply forallb_forall. vm_compute. reflexivity. }
  split; [exact H1|]. split; [exact H2|].
  destruct (main_best_effort 0 (fun _ => EmptyString) ex_file ex_net (tasks (parse_m3u ex_file)))
    as (_ & _ & H).
  exact (H H1 H2).
Defined.

(** The builder raises on a 200 body whose [epg] is [null]: [main] then
    writes no file, although the failure concerns one task only. *)
Lemma main_crashes_on_null_epg :
  run_outcome (main 0 (fun _ => EmptyString) ex_file
                    (fun i _ => if Nat.eqb i 1 then RHttp 200 (Some (JObj [("epg", JNull)]))
                                else RHttp 404 None)
                    (tasks (parse_m3u ex_file))) = Crashed.
Proof. vm_compute. reflexivity. Qed.

(** Likewise for an entry whose [episodePoster] is a number. *)
Lemma main_crashes_on_numeric_poster :
  run_outcome (main 0 (fun _ => EmptyString) ex_file
                    (fun i _ => if Nat.eqb i 1
                                then RHttp 200 (Some (JObj [("epg", JArr [
                                       JObj [("startEpoch", JInt 1700000000000);
                                             ("endEpoch", JInt 1700001800000);
                                             ("episodePoster", JInt 5)]])]))
                                else RHttp 404 None)
                    (tasks (parse_m3u ex_file))) = Crashed.
Proof. vm_compute. reflexivity. Qed.

(** The entry of the C2 failing input: valid timestamps, and a numeric
    [episodePoster]. *)
Definition poster_entry : json :=
  JObj [("startEpoch", JInt 1700000000000); ("endEpoch", JInt 1700001800000);
        ("episodePoster", JInt 5)].

(** Task 1 (channel [7], offset 0) receives a schedule with [poster_entry];
    every other task receives 404. *)
Definition poster_net : network :=
  fun i _ => if Nat.eqb i 1 then RHttp 200 (Some (JObj [("epg", JArr [poster_entry])]))
             else RHttp 404 None.

(** C2 (code bug): an entry whose timestamps are valid, so that the [try]
    of lines 201-205 passes, yet whose [episodePoster] is a number, makes
    [SHOW_IMAGE_BASE + poster] raise outside any [try]: [main] ends with an
    exception, no file is written, and the entry yields no programme
    element, nor does any other entry of the run. *)
Theorem valid_entry_numeric_poster_no_programme :
  (exists start stop, entry_times 0 poster_entry = Some (start, stop)) /\
  task_handled 0 (fun _ => EmptyString) poster_net (mk_task 1 "7" 0) = false /\
  run_outcome (main 0 (fun _ => EmptyString) ex_file poster_net (tasks (parse_m3u ex_file)))
  = Crashed.
Proof.
  split; [do 2 eexists; vm_compute; reflexivity|].
  split; vm_compute; reflexivity.
Qed.

(* ================================================================== *)
(** ** Further properties of [generate_epg.py] *)
(* ================================================================== *)

Lemma number_tasks_fields (i : nat) (l : list (string * Z)) :
  map t_index (number_tasks i l) = seq i (List.length l) /\
  map (fun t => (t_cid t, t_offset t)) (number_tasks i l) = l.
Proof.
  revert i; induction l as [|[cid off] l IH]; intros i; simpl; [auto|].
  destruct (IH (S i)) as [H1 H2]. rewrite H1, H2. auto.
Qed.

(** The submitted tasks: four per channel, numbered [1 .. total_tasks]
    in submission order, and one for every (channel, offset) pair. *)
Theorem tasks_structure (chs : list channel) :
  List.length (tasks chs) = (4 * List.length chs)%nat /\
  map t_index (tasks chs) = seq 1 (4 * List.length chs) /\
  (forall ch off, In ch chs -> In off offsets ->
     exists t, In t (tasks chs) /\ t_cid t = ch_id ch /\ t_offset t = off).
Proof.
  assert (Hlen : List.length (flat_map (fun off => map (fun ch => (ch_id ch, off)) chs) offsets)
                 = (4 * List.length chs)%nat)
    by (simpl; rewrite !length_app, !length_map; simpl; lia).
  destruct (number_tasks_fields 1 (flat_map (fun off => map (fun ch => (ch_id ch, off)) chs)
                                            offsets)) as [H1 H2].
  unfold tasks. split; [|split].
  - rewrite <- Hlen, <- (length_map t_index), H1, length_seq. reflexivity.
  - rewrite H1, Hlen. reflexivity.
  - intros ch off Hch Hoff.
    assert (Hin : In (ch_id ch, off) (flat_map (fun off => map (fun ch => (ch_id ch, off)) chs)
                                               offsets)).
    { apply in_flat_map. exists off. split; [exact Hoff|].
      apply in_map_iff. exists ch. auto. }
    rewrite <- H2 in Hin. apply in_map_iff in Hin as (t & Ht & Hin).
    injection Ht as Hc Ho. exists t. auto.
Qed.

Lemma list_sum_bounds {A : Type} (f : A -> nat) (a b : nat) (l : list A) :
  (forall x, In x l -> a <= f x <= b)%nat ->
  (a * List.length l <= list_sum (map f l) <= b * List.length l)%nat.
Proof.
  induction l as [|x l IH]; intros H; simpl; [lia|].
  pose proof (H x (or_introl eq_refl)).
  assert (Hl : (a * List.length l <= list_sum (map f l) <= b * List.length l)%nat)
    by (apply IH; intros y Hy; apply H; right; exact Hy).
  lia.
Qed.

(** Once a channel loads, a run makes between one and [MAX_RETRIES]
    requests per task: between [4 n] and [12 n] for [n] channels. *)
Theorem main_request_bounds (utc_offset : Z) (repr_container : json -> string)
    (file : m3u_file) (net : network) (order : list task) :
  parse_m3u file <> [] ->
  (4 * List.length (parse_m3u file) <= run_requests (main utc_offset repr_container file net order)
   <= 12 * List.length (parse_m3u file))%nat.
Proof.
  intros Hne.
  assert (Hb := list_sum_bounds (fun t => fo_attempts (run_task net t)) 1 3 (tasks (parse_m3u file))).
  destruct (tasks_structure (parse_m3u file)) as (Hl & _ & _).
  rewrite Hl in Hb.
  assert (Hr : run_requests (main utc_offset repr_container file net order)
               = list_sum (map (fun t => fo_attempts (run_task net t)) (tasks (parse_m3u file)))).
  { unfold main. destruct (parse_m3u file) as [|ch chs]; [congruence|].
    destruct (collect net order) as [rs|]; [|reflexivity].
    destruct (build_results utc_offset repr_container rs); reflexivity. }
  rewrite Hr.
  assert (H : (1 * (4 * List.length (parse_m3u file))
               <= list_sum (map (fun t => fo_attempts (run_task net t)) (tasks (parse_m3u file)))
               <= 3 * (4 * List.length (parse_m3u file)))%nat).
  { apply Hb. intros t _. unfold run_task.
    destruct (fetch_epg_spec (t_cid t) (t_offset t) (net (t_index t))) as (Hn & _).
    unfold MAX_RETRIES in Hn. exact Hn. }
  lia.
Qed.

(** Each task sleeps one time fewer than it sends requests, longer each
    time, and at most [3 + 6 = 9] seconds in all. *)
Lemma main_request_bounds_witness :
  parse_m3u ex_file <> [] /\
  (4 * List.length (parse_m3u ex_file)
   <= run_requests (main 0 (fun _ => EmptyString) ex_file ex_net (tasks (parse_m3u ex_file)))
   <= 12 * List.length (parse_m3u ex_file))%nat.
Proof.
  assert (H : parse_m3u ex_file <> []) by (vm_compute; discriminate).
  split; [exact H|].
  exact (main_request_bounds 0 (fun _ => EmptyString) ex_file ex_net _ H).
Defined.

Theorem fetch_epg_sleep_budget (channel_id : string) (offset : Z) (resp : nat -> response) :
  let o := fetch_epg channel_id offset resp in
  List.length (fo_sleeps o) = (fo_attempts o - 1)%nat /\
  StronglySorted lt (fo_sleeps o) /\
  (list_sum (fo_sleeps o) <= 9)%nat.
Proof.
  destruct (fetch_epg_spec channel_id offset resp) as ((Hn1 & Hn2) & Hs & _).
  simpl. rewrite Hs. unfold MAX_RETRIES in Hn2.
  destruct (fo_attempts (fetch_epg channel_id offset resp)) as [|[|[|[|n]]]]; try lia;
    simpl; repeat split; repeat constructor; lia.
Qed.

Lemma contains_char_in (c : ascii) (s : string) :
  contains_char c s = true <-> In c (list_ascii_of_string s).
Proof.
  induction s as [|c' s IH]; simpl; [split; [discriminate | intros []]|].
  rewrite orb_true_iff, IH. split.
  - intros [H|H]; [left; symmetry; apply Ascii.eqb_eq; exact H | right; exact H].
  - intros [H|H]; [left; apply Ascii.eqb_eq; symmetry; exact H | right; exact H].
Qed.

Lemma lstrip_in (c : ascii) (s : string) :
  In c (list_ascii_of_string (lstrip s)) -> In c (list_ascii_of_string s).
Proof.
  induction s as [|c' s IH]; simpl; [auto|].
  destruct (is_space c'); simpl; auto.
Qed.

Lemma strip_in (c : ascii) (s : string) :
  In c (list_ascii_of_string (strip s)) -> In c (list_ascii_of_string s).
Proof.
  unfold strip, rstrip. rewrite list_ascii_of_string_of_list_ascii.
  intros H. apply in_rev in H. apply lstrip_in in H.
  rewrite list_ascii_of_string_of_list_ascii in H. apply in_rev in H.
  apply lstrip_in in H. exact H.
Qed.

Lemma strip_no_char (c : ascii) (s : string) :
  contains_char c s = false -> contains_char c (strip s) = false.
Proof.
  intros H. destruct (contains_char c (strip s)) eqn:E; [|reflexivity].
  apply contains_char_in, strip_in, contains_char_in in E. congruence.
Qed.

(** Every loaded channel's identifier and logo are free of double quotes,
    so the [id] and [src] attributes written for it never hold one. *)
Theorem parse_m3u_quote_free (file : m3u_file) (ch : channel) :
  In ch (parse_m3u file) ->
  contains_char dq (ch_id ch) = false /\ contains_char dq (ch_logo ch) = false.
Proof.
  destruct file as [lines|]; [|intros []].
  simpl. unfold parse_lines. rewrite parse_lines_acc. simpl.
  intros H. apply in_flat_map in H as (l & _ & Hl).
  destruct (parse_line l) as [ch'|] eqn:E; [|destruct Hl].
  destruct Hl as [<- | []].
  unfold parse_line in E.
  destruct (startswith "#EXTINF" (strip l)); [|discriminate].
  destruct (re_search_attr tvg_id_key (strip l)) as [g|] eqn:Eg; [|discriminate].
  injection E as <-. simpl.
  destruct (re_search_attr_sound _ _ _ Eg) as (_ & _ & _ & _ & Hg).
  split; [apply strip_no_char; exact Hg|].
  destruct (re_search_attr tvg_logo_key (strip l)) as [lg|] eqn:El; [|reflexivity].
  destruct (re_search_attr_sound _ _ _ El) as (_ & _ & _ & _ & Hl).
  apply strip_no_char; exact Hl.
Qed.

Lemma parse_m3u_quote_free_witness :
  In (mk_channel "7" "News, Live" "l.png") (parse_m3u ex_file) /\
  contains_char dq "7" = false /\ contains_char dq "l.png" = false.
Proof.
  assert (H : In (mk_channel "7" "News, Live" "l.png") (parse_m3u ex_file))
    by (vm_compute; left; reflexivity).
  split; [exact H|].
  exact (parse_m3u_quote_free ex_file _ H).
Defined.

(** The children of an appended programme follow the entry: [title] is
    ["Unknown"] without [showname], [category] is present exactly when the
    entry has a [genre] key, and [icon] is [SHOW_IMAGE_BASE] followed by a
    non-empty string [episodePoster], absent when that key is missing or
    falsy. *)
Theorem entry_step_fields (utc_offset : Z) (repr_container : json -> string)
    (cid : string) (p : json) (pr : programme) :
  entry_step utc_offset repr_container cid p = Some (Some pr) ->
  exists kvs, p = JObj kvs /\
    (obj_get "showname" kvs = None -> pr_title pr = "Unknown") /\
    (pr_category pr = None <-> obj_get "genre" kvs = None) /\
    (forall src, pr_icon pr = Some src ->
       exists poster, obj_get "episodePoster" kvs = Some (JStr poster) /\
                      poster <> EmptyString /\ src = SHOW_IMAGE_BASE ++ poster) /\
    (pr_icon pr = None ->
       obj_get "episodePoster" kvs = None \/
       exists v, obj_get "episodePoster" kvs = Some v /\ truthy v = false).
Proof.
  unfold entry_step.
  destruct (entry_times utc_offset p) as [[start stop]|] eqn:Et; [|discriminate].
  destruct p as [| | | | |kvs]; try (unfold entry_times, epoch_field in Et; discriminate).
  unfold entry_get.
  assert (Hcat : forall icon,
    (pr_category (mk_programme (strftime_xmltv start) (strftime_xmltv stop) cid
       (strip (py_str repr_container (match obj_get "showname" kvs with
                                      | Some v => v | None => JStr "Unknown" end)))
       (strip (py_str repr_container (match obj_get "description" kvs with
                                      | Some v => v | None => JStr EmptyString end)))
       (match obj_get "genre" kvs with Some g => Some (strip (py_str repr_container g))
                                       | None => None end) icon) = None
     <-> obj_get "genre" kvs = None)).
  { intros icon; simpl. destruct (obj_get "genre" kvs); split; congruence. }
  assert (Htitle : obj_get "showname" kvs = None ->
    strip (py_str repr_container (match obj_get "showname" kvs with
                                  | Some v => v | None => JStr "Unknown" end)) = "Unknown")
    by (intros ->; reflexivity).
  destruct (obj_get "episodePoster" kvs) as [poster|] eqn:Ep.
  - destruct (truthy poster) eqn:Ht.
    + destruct poster as [| | |s| |]; try discriminate.
      intros H; injection H as <-. exists kvs. split; [reflexivity|].
      split; [exact Htitle|]. split; [apply Hcat|]. split.
      * intros src Hs; injection Hs as <-. exists s. split; [exact Ep|]. split; [|reflexivity].
        intros ->. discriminate Ht.
      * discriminate.
    + intros H; injection H as <-. exists kvs. split; [reflexivity|].
      split; [exact Htitle|]. split; [apply Hcat|]. split; [discriminate|].
      intros _. right. eauto.
  - intros H; injection H as <-. exists kvs. split; [reflexivity|].
    split; [exact Htitle|]. split; [apply Hcat|]. split; [discriminate|]. auto.
Qed.

Lemma entry_step_fields_witness :
  entry_step 0 (fun _ => EmptyString) "101" ex_entry
  = Some (Some (mk_programme "20231114221320 +0530" "20231114224320 +0530" "101"
                             "Test Show" EmptyString None None)) /\
  exists kvs, ex_entry = JObj kvs /\
    (obj_get "showname" kvs = None -> "Test Show" = "Unknown") /\
    (@None string = None <-> obj_get "genre" kvs = None) /\
    (forall src, @None string = Some src ->
       exists poster, obj_get "episodePoster" kvs = Some (JStr poster) /\
                      poster <> EmptyString /\ src = SHOW_IMAGE_BASE ++ poster) /\
    (@None string = None ->
       obj_get "episodePoster" kvs = None \/
       exists v, obj_get "episodePoster" kvs = Some v /\ truthy v = false).
Proof.
  assert (H : entry_step 0 (fun _ => EmptyString) "101" ex_entry
              = Some (Some (mk_programme "20231114221320 +0530" "20231114224320 +0530" "101"
                                         "Test Show" EmptyString None None)))
    by (vm_compute; reflexivity).
  split; [exact H|].
  exact (entry_step_fields 0 (fun _ => EmptyString) "101" ex_entry _ H).
Defined.

Lemma build_entries_non_objects (utc_offset : Z) (repr_container : json -> string)
    (cid : string) (es : list json) :
  (forall p, In p es -> forall kvs, p <> JObj kvs) ->
  build_entries utc_offset repr_container cid es = Some [].
Proof.
  induction es as [|p es IH]; intros H; simpl; [reflexivity|].
  assert (Hp : entry_step utc_offset repr_container cid p = Some None).
  { unfold entry_step.
    destruct p as [| | | | |kvs]; try reflexivity.
    exfalso. exact (H _ (or_introl eq_refl) kvs eq_refl). }
  rewrite Hp, IH; [reflexivity|]. intros q Hq. apply H. right. exact Hq.
Qed.

(** How a 200 payload dict is used: without an [epg] key the task is
    skipped; an [epg] dict or string is iterated (keys or characters) and
    adds no programme; an [epg] that is [null], a boolean or a number
    makes the builder raise; and schedule items that are not dicts are
    dropped. *)
Theorem payload_shapes (utc_offset : Z) (repr_container : json -> string)
    (cid : string) (kvs : list (string * json)) :
  (existsb (fun kv => String.eqb "epg" (fst kv)) kvs = false ->
   skip_payload (Some (JObj kvs)) = Some true) /\
  ((exists m, obj_get "epg" kvs = Some (JObj m)) \/ (exists s, obj_get "epg" kvs = Some (JStr s)) ->
   exists es, schedule_of (JObj kvs) = Some es /\
              build_entries utc_offset repr_container cid es = Some []) /\
  (obj_get "epg" kvs = Some JNull \/ (exists b, obj_get "epg" kvs = Some (JBool b)) \/
   (exists z, obj_get "epg" kvs = Some (JInt z)) ->
   schedule_of (JObj kvs) = None) /\
  (forall es, (forall p, In p es -> forall kvs', p <> JObj kvs') ->
   build_entries utc_offset repr_container cid es = Some []).
Proof.
  split; [|split; [|split]].
  - intros H. unfold skip_payload. rewrite H.
    destruct (truthy (JObj kvs)); reflexivity.
  - intros [(m & Hm) | (s & Hs)]; unfold schedule_of; [rewrite Hm | rewrite Hs];
      eexists; split; try reflexivity; apply build_entries_non_objects;
      intros p Hp kvs' ->; apply in_map_iff in Hp as (x & Hx & _); discriminate.
  - unfold schedule_of. intros [H | [(b & H) | (z & H)]]; rewrite H; reflexivity.
  - apply build_entries_non_objects.
Qed.

Lemma forallb_perm {A : Type} (f : A -> bool) (l1 l2 : list A) :
  Permutation l1 l2 -> forallb f l1 = forallb f l2.
Proof.
  induction 1 as [|x l1 l2 _ IH|x y l|l1 l2 l3 _ IH1 _ IH2]; simpl.
  - reflexivity.
  - rewrite IH. reflexivity.
  - rewrite !andb_assoc, (andb_comm (f y)). reflexivity.
  - congruence.
Qed.

Lemma collect_eq (net : network) (order : list task) :
  collect net order =
  if forallb (fun t => match collect_step net t with None => false | _ => true end) order
  then Some (flat_map (fun t => match collect_step net t with
                                | Some (Some r) => [r] | _ => [] end) order)
  else None.
Proof.
  induction order as [|t order IH]; simpl; [reflexivity|].
  rewrite IH. destruct (collect_step net t) as [[r|]|]; simpl; [| |reflexivity];
    destruct (forallb _ order); reflexivity.
Qed.

Lemma build_results_eq (utc_offset : Z) (repr_container : json -> string)
    (rs : list (string * json)) :
  build_results utc_offset repr_container rs =
  if forallb (fun r => match schedule_of (snd r) with
                       | Some es => match build_entries utc_offset repr_container (fst r) es with
                                    | Some _ => true | None => false end
                       | None => false end) rs
  then Some (flat_map (fun r => match schedule_of (snd r) with
                                | Some es => match build_entries utc_offset repr_container (fst r) es with
                                             | Some ps => ps | None => [] end
                                | None => [] end) rs)
  else None.
Proof.
  induction rs as [|[cid j] rs IH]; simpl; [reflexivity|].
  rewrite IH. destruct (schedule_of j) as [es|]; [|reflexivity].
  destruct (build_entries utc_offset repr_container cid es) as [ps|]; [|reflexivity].
  simpl. destruct (forallb _ rs); reflexivity.
Qed.

(** The completion order of the futures does not matter beyond the order
    of the programmes: under any two orders, a run raises in both or in
    neither, and written documents have the same channel elements followed
    by the same programmes up to permutation. *)
Theorem main_order_independent (utc_offset : Z) (repr_container : json -> string)
    (file : m3u_file) (net : network) (o1 o2 : list task) :
  Permutation o1 o2 ->
  (run_outcome (main utc_offset repr_container file net o1) = Crashed <->
   run_outcome (main utc_offset repr_container file net o2) = Crashed) /\
  (forall d1, run_outcome (main utc_offset repr_container file net o1) = Written d1 ->
   exists ps1 ps2,
     d1 = (map channel_element (parse_m3u file) ++ map EProgramme ps1)%list /\
     run_outcome (main utc_offset repr_container file net o2)
     = Written (map channel_element (parse_m3u file) ++ map EProgramme ps2)%list /\
     Permutation ps1 ps2).
Proof.
  intros Hp. unfold main.
  destruct (parse_m3u file) as [|ch chs]; [split; [split; discriminate | discriminate]|].
  rewrite !collect_eq, (forallb_perm _ _ _ Hp).
  destruct (forallb _ o2); [|simpl; split; [tauto | discriminate]].
  set (g := fun t => match collect_step net t with Some (Some r) => [r] | _ => [] end).
  assert (Hr : Permutation (flat_map g o1) (flat_map g o2)) by (apply Permutation_flat_map; exact Hp).
  rewrite !build_results_eq, (forallb_perm _ _ _ Hr).
  destruct (forallb _ (flat_map g o2)); [|simpl; split; [tauto | discriminate]].
  simpl. split; [split; discriminate|].
  intros d1 Hd. injection Hd as <-. do 2 eexists. split; [reflexivity|]. split; [reflexivity|].
  apply Permutation_flat_map. exact Hr.
Qed.

Lemma main_order_independent_witness :
  Permutation (tasks (parse_m3u ex_file)) (rev (tasks (parse_m3u ex_file))) /\
  (run_outcome (main 0 (fun _ => EmptyString) ex_file ex_net (tasks (parse_m3u ex_file))) = Crashed <->
   run_outcome (main 0 (fun _ => EmptyString) ex_file ex_net (rev (tasks (parse_m3u ex_file)))) = Crashed) /\
  (forall d1, run_outcome (main 0 (fun _ => EmptyString) ex_file ex_net (tasks (parse_m3u ex_file)))
              = Written d1 ->
   exists ps1 ps2,
     d1 = (map channel_element (parse_m3u ex_file) ++ map EProgramme ps1)%list /\
     run_outcome (main 0 (fun _ => EmptyString) ex_file ex_net (rev (tasks (parse_m3u ex_file))))
     = Written (map channel_element (parse_m3u ex_file) ++ map EProgramme ps2)%list /\
     Permutation ps1 ps2).
Proof.
  assert (Hp : Permutation (tasks (parse_m3u ex_file)) (rev (tasks (parse_m3u ex_file))))
    by apply Permutation_rev.
  split; [exact Hp|].
  exact (main_order_independent 0 (fun _ => EmptyString) ex_file ex_net _ _ Hp).
Defined.

(* ================================================================== *)
(** ** Properties of the workflow script *)
(* ================================================================== *)

Import Workflow.

Lemma dec_digits_uint (d : Decimal.uint) (acc : Z) :
  dec_digits (list_ascii_of_string (NilEmpty.string_of_uint d)) acc = Some (uval d acc).
Proof.
  revert acc; induction d; intros acc; simpl; try reflexivity; apply IHd.
Qed.

Lemma uval_acc (d : Decimal.uint) (p : positive) :
  uval d (Z.pos p) = Z.pos (Pos.of_uint_acc d p).
Proof.
  revert p; induction d; intros p; cbn [uval Pos.of_uint_acc]; try reflexivity;
    rewrite <- IHd; f_equal; lia.
Qed.

Lemma uval_of_uint (d : Decimal.uint) : uval d 0 = Z.of_N (Pos.of_uint d).
Proof.
  induction d; simpl; try rewrite <- uval_acc; try reflexivity; exact IHd.
Qed.

Lemma lstrip_nospace (s : string) :
  forallb (fun c => negb (is_space c)) (list_ascii_of_string s) = true -> lstrip s = s.
Proof.
  destruct s as [|c s]; simpl; [reflexivity|].
  destruct (is_space c); [discriminate | reflexivity].
Qed.

Lemma strip_nospace (s : string) :
  forallb (fun c => negb (is_space c)) (list_ascii_of_string s) = true -> strip s = s.
Proof.
  intros H. unfold strip, rstrip. rewrite (lstrip_nospace s H).
  rewrite lstrip_nospace.
  - rewrite !list_ascii_of_string_of_list_ascii, rev_involutive.
    apply string_of_list_ascii_of_string.
  - rewrite list_ascii_of_string_of_list_ascii, forallb_forall.
    intros c Hc. apply in_rev in Hc. rewrite forallb_forall in H. exact (H c Hc).
Qed.

Lemma uint_nospace (d : Decimal.uint) :
  forallb (fun c => negb (is_space c)) (list_ascii_of_string (NilEmpty.string_of_uint d)) = true.
Proof. induction d; simpl; try reflexivity; exact IHd. Qed.

Lemma unsigned_int_uint (d : Decimal.uint) :
  d <> Decimal.Nil ->
  unsigned_int (list_ascii_of_string (NilEmpty.string_of_uint d)) = Some (uval d 0).
Proof.
  intros Hd. rewrite <- dec_digits_uint.
  destruct d; [congruence| ..]; reflexivity.
Qed.

Lemma py_int_str_uint (d : Decimal.uint) :
  d <> Decimal.Nil ->
  py_int_str (NilEmpty.string_of_uint d) = Some (uval d 0) /\
  py_int_str (String "-" (NilEmpty.string_of_uint d)) = Some (- uval d 0)%Z.
Proof.
  intros Hd. unfold py_int_str. split.
  - rewrite strip_nospace by apply uint_nospace.
    rewrite <- (unsigned_int_uint d Hd).
    destruct d; [congruence| ..]; reflexivity.
  - rewrite strip_nospace by (simpl; apply uint_nospace).
    cbv beta iota delta [list_ascii_of_string]. fold list_ascii_of_string.
    rewrite (unsigned_int_uint d Hd). reflexivity.
Qed.

Lemma py_int_of_str (repr_container : json -> string) (z : Z) :
  py_int (JStr (py_str repr_container (JInt z))) = Some z.
Proof.
  destruct z as [|p|p]; [reflexivity| |];
    cbn [py_int py_str Z.to_int NilEmpty.string_of_int];
    destruct (py_int_str_uint (Pos.to_uint p) (DecimalPos.Unsigned.to_uint_nonnil p)) as [H1 H2].
  - rewrite H1, uval_of_uint, DecimalPos.Unsigned.of_to. reflexivity.
  - rewrite H2, uval_of_uint, DecimalPos.Unsigned.of_to. reflexivity.
Qed.

Lemma contains_char_app (c : ascii) (a b : string) :
  contains_char c (a ++ b) = contains_char c a || contains_char c b.
Proof.
  induction a as [|c' a IH]; simpl; [reflexivity|]. rewrite IH, orb_assoc. reflexivity.
Qed.

Lemma span_digits_split (s d r : string) :
  span_digits s = (d, r) -> s = d ++ r /\ all_digits d = true.
Proof.
  revert d r; induction s as [|c s IH]; intros d r H; simpl in H.
  - injection H as <- <-. auto.
  - destruct (is_digit c) eqn:Hc.
    + destruct (span_digits s) as [d' r'] eqn:E. injection H as <- <-.
      destruct (IH d' r' eq_refl) as [-> Hd]. simpl. rewrite Hc, Hd. auto.
    + injection H as <- <-. auto.
Qed.

Lemma span_line_split (s a b : string) :
  span_line s = (a, b) ->
  s = a ++ b /\ contains_char nl a = false /\
  (b = EmptyString \/ exists b', b = String nl b').
Proof.
  revert a b; induction s as [|c s IH]; intros a b H; simpl in H.
  - injection H as <- <-. auto.
  - destruct (Ascii.eqb_spec c nl) as [->|Hc].
    + injection H as <- <-. simpl. eauto.
    + destruct (span_line s) as [a' b'] eqn:E. injection H as <- <-.
      destruct (IH a' b' eq_refl) as (-> & Ha & Hb).
      split; [reflexivity|]. split; [|exact Hb].
      change ((Ascii.eqb nl c || contains_char nl a')%bool = false).
      rewrite Ha, orb_false_r. apply Ascii.eqb_neq. congruence.
Qed.

Lemma after_last_comma_split (s r : string) :
  after_last_comma s = Some r ->
  exists pre, s = pre ++ String "," r /\ contains_char "," r = false.
Proof.
  revert r; induction s as [|c s IH]; intros r H; simpl in H; [discriminate|].
  destruct (after_last_comma s) as [r'|] eqn:E.
  - injection H as <-. destruct (IH r' eq_refl) as (pre & -> & Hr).
    exists (String c pre). auto.
  - destruct (Ascii.eqb_spec c ",") as [->|]; [|discriminate].
    injection H as <-. exists EmptyString. split; [reflexivity|].
    destruct (contains_char "," s) eqn:Hc; [|reflexivity].
    exfalso. apply contains_char_in in Hc.
    apply in_split in Hc as (l1 & l2 & Hl).
    assert (Hs : s = string_of_list_ascii l1 ++ String "," (string_of_list_ascii l2)).
    { rewrite <- (string_of_list_ascii_of_string s), Hl. clear.
      induction l1 as [|x l1 IH]; simpl; [reflexivity|]. rewrite IH. reflexivity. }
    rewrite Hs in E. clear -E.
    induction (string_of_list_ascii l1) as [|x t IH]; simpl in E.
    + destruct (after_last_comma (string_of_list_ascii l2)); [discriminate|].
      rewrite ?Ascii.eqb_refl in E. discriminate.
    + destruct (after_last_comma (t ++ String "," (string_of_list_ascii l2))); [discriminate|].
      apply IH. reflexivity.
Qed.

Lemma logo_at_sound (s logo name rem : string) :
  logo_at s = Some (logo, name, rem) -> logo_match s logo name rem.
Proof.
  unfold logo_at. destruct (String.prefix tvg_logo_key s) eqn:Hp; [|discriminate].
  pose proof (prefix_split tvg_logo_key s Hp) as Hs.
  set (rest := substring _ _ s) in *.
  destruct (span_nonquote rest) as [v r] eqn:Hspan.
  apply span_nonquote_split in Hspan as (Hsplit & Hv & _).
  destruct v as [|x v']; [discriminate|].
  destruct r as [|q r]; [discriminate|].
  destruct (Ascii.eqb_spec q dq) as [->|]; [|discriminate].
  destruct (span_line r) as [line remaining] eqn:Hl.
  apply span_line_split in Hl as (Hr & Hline & Hrem).
  destruct (after_last_comma line) as [nm|] eqn:Ha; [|discriminate].
  apply after_last_comma_split in Ha as (pre & Hline' & Hnm).
  intros E; injection E as <- <- <-.
  split; [discriminate|]. split; [exact Hv|]. split; [exact Hnm|].
  split.
  - rewrite Hline', contains_char_app in Hline. apply orb_false_iff in Hline as [_ H].
    simpl in H. exact H.
  - split; [|exact Hrem].
    exists (tvg_logo_key ++ String x v' ++ String dq pre).
    rewrite Hs, Hsplit, Hr, Hline', !sappend_assoc. reflexivity.
Qed.

Lemma logo_search_sound (s logo name rem : string) :
  logo_search s = Some (logo, name, rem) -> logo_match s logo name rem.
Proof.
  induction s as [|c s IH]; simpl; [apply logo_at_sound|].
  destruct (Ascii.eqb c nl); [apply logo_at_sound|].
  destruct (logo_search s) as [[[l n] r]|] eqn:E; [|apply logo_at_sound].
  intros H; injection H as <- <- <-.
  destruct (IH eq_refl) as (H1 & H2 & H3 & H4 & (pre & Hs) & H6).
  repeat split; try assumption. exists (String c pre). rewrite Hs. reflexivity.
Qed.

Lemma id_at_sound (s d logo name rem : string) :
  id_at s = Some (d, logo, name, rem) ->
  d <> EmptyString /\ all_digits d = true /\ logo_match s logo name rem.
Proof.
  unfold id_at. destruct (String.prefix tvg_id_key s) eqn:Hp; [|discriminate].
  pose proof (prefix_split tvg_id_key s Hp) as Hs.
  set (rest := substring _ _ s) in *.
  destruct (span_digits rest) as [v r] eqn:Hspan.
  apply span_digits_split in Hspan as (Hsplit & Hv).
  destruct v as [|x v']; [discriminate|].
  destruct r as [|q r]; [discriminate|].
  destruct (Ascii.eqb_spec q dq) as [->|]; [|discriminate].
  destruct (logo_search r) as [[[l n] m]|] eqn:Hl; [|discriminate].
  intros E; injection E as <- <- <- <-.
  split; [discriminate|]. split; [exact Hv|].
  destruct (logo_search_sound r l n m Hl) as (H1 & H2 & H3 & H4 & (pre & Hr) & H6).
  repeat split; try assumption.
  exists (tvg_id_key ++ String x v' ++ String dq pre).
  rewrite Hs, Hsplit, Hr, !sappend_assoc. reflexivity.
Qed.

Lemma findall_fuel_sound (fuel : nat) (s d logo name : string) :
  In (d, logo, name) (findall_fuel fuel s) ->
  d <> EmptyString /\ all_digits d = true /\ logo <> EmptyString /\
  contains_char dq logo = false /\
  contains_char "," name = false /\ contains_char nl name = false /\
  exists pre post, s = pre ++ String "," (name ++ post) /\
                   (post = EmptyString \/ exists post', post = String nl post').
Proof.
  revert s; induction fuel as [|f IH]; intros s H; simpl in H; [destruct H|].
  destruct (id_at s) as [[[[d' l'] n'] r']|] eqn:E.
  - destruct (id_at_sound _ _ _ _ _ E) as (Hd & Hdg & Hl & Hq & Hc & Hn & (pre & Hs) & Hr).
    destruct H as [H|H].
    + injection H as <- <- <-. repeat split; try assumption. eauto.
    + destruct (IH r' H) as (K1 & K2 & K3 & K4 & K5 & K6 & (pre' & post & Hr' & Hp)).
      repeat split; try assumption.
      exists (pre ++ String "," (n' ++ pre')), post. split; [|exact Hp].
      rewrite Hs, Hr', sappend_assoc. simpl. rewrite sappend_assoc. reflexivity.
  - destruct s as [|c s]; [destruct H|].
    destruct (IH s H) as (K1 & K2 & K3 & K4 & K5 & K6 & (pre & post & Hs & Hp)).
    repeat split; try assumption. exists (String c pre), post. rewrite Hs. auto.
Qed.

Lemma workflow_item_channel (utc_offset : Z) (repr_container : json -> string)
    (cid : string) (it : json) (p : wprogramme) :
  workflow_item utc_offset repr_container cid it = Some p -> wp_channel p = cid.
Proof.
  unfold workflow_item. destruct it as [| | | | |kvs]; try discriminate.
  repeat match goal with
         | |- match ?x with _ => _ end = Some _ -> _ => destruct x; try discriminate
         end.
  intros H; injection H as <-. reflexivity.
Qed.

Lemma workflow_items_channel (utc_offset : Z) (repr_container : json -> string)
    (cid : string) (l : list json) :
  Forall (fun p => wp_channel p = cid) (workflow_items utc_offset repr_container cid l).
Proof.
  induction l as [|it l IH]; simpl; [constructor|].
  destruct (workflow_item utc_offset repr_container cid it) as [p|] eqn:E; [|constructor].
  constructor; [exact (workflow_item_channel _ _ _ _ _ E) | exact IH].
Qed.

Lemma workflow_channel_programmes_channel (utc_offset : Z) (repr_container : json -> string)
    (cid : string) (r : response) :
  Forall (fun p => wp_channel p = cid)
         (workflow_channel_programmes utc_offset repr_container cid r).
Proof.
  unfold workflow_channel_programmes.
  destruct r as [|s [[| | | | |kvs]|]]; try constructor.
  destruct (Z.eqb s 200); [|constructor].
  destruct (obj_get "epg" kvs) as [[| | | |l|m]|]; try constructor;
    apply workflow_items_channel.
Qed.

Lemma channel_elements_blocks (utc_offset : Z) (repr_container : json -> string)
    (net : nat -> response) (i : nat) (chans : list (string * string * string)) :
  exists blocks,
    map (fun b => match b with (cid, logo, name, _) => (cid, logo, name) end) blocks = chans /\
    channel_elements utc_offset repr_container net i chans = flat_map block_elements blocks /\
    Forall (fun b => match b with (cid, _, _, ps) => Forall (fun p => wp_channel p = cid) ps end)
           blocks.
Proof.
  revert i; induction chans as [|[[cid logo] name] chans IH]; intros i; simpl.
  - exists []. auto.
  - destruct (IH (S i)) as (blocks & H1 & H2 & H3).
    exists ((cid, logo, name, workflow_channel_programmes utc_offset repr_container cid (net i))
            :: blocks).
    simpl. rewrite H1, H2. split; [reflexivity|]. split; [reflexivity|].
    constructor; [apply workflow_channel_programmes_channel | exact H3].
Qed.

Lemma workflow_items_prefix (utc_offset : Z) (repr_container : json -> string)
    (cid : string) (l1 l2 : list json) (bad : json) :
  Forall (fun it => workflow_item utc_offset repr_container cid it <> None) l1 ->
  workflow_item utc_offset repr_container cid bad = None ->
  map Some (workflow_items utc_offset repr_container cid (l1 ++ bad :: l2))
  = map (workflow_item utc_offset repr_container cid) l1.
Proof.
  intros Hok Hbad. induction Hok as [|it l1 Hit _ IH]; simpl.
  - rewrite Hbad. reflexivity.
  - destruct (workflow_item utc_offset repr_container cid it) as [p|]; [|congruence].
    simpl. rewrite IH. reflexivity.
Qed.

Lemma findall_fuel_stable (f : nat) (s : string) :
  (String.length s < f)%nat -> findall_fuel f s = findall_fuel (S f) s.
Proof.
  revert s; induction f as [|f IH]; intros s Hs; [lia|].
  cbn [findall_fuel]. destruct (id_at s) as [[[[d l] n] r]|] eqn:E.
  - f_equal. apply IH.
    destruct (id_at_sound _ _ _ _ _ E) as (_ & _ & _ & _ & _ & _ & (pre & Hp) & _).
    rewrite Hp, slength_app in Hs. simpl in Hs. rewrite slength_app in Hs. lia.
  - destruct s as [|c s]; [reflexivity|]. apply IH. simpl in Hs. lia.
Qed.

(** Every match of the channel pattern has a non-empty all-digit
    identifier and a non-empty logo without double quotes; its name is the
    text after the last comma of the line the match ends on (the content
    continues with a newline or ends right after it), so it holds neither
    a comma nor a newline. *)
Theorem findall_channels_sound (content cid logo name : string) :
  In (cid, logo, name) (findall_channels content) ->
  cid <> EmptyString /\ all_digits cid = true /\
  logo <> EmptyString /\ contains_char dq logo = false /\
  contains_char "," name = false /\ contains_char nl name = false /\
  exists pre post, content = pre ++ String "," (name ++ post) /\
                   (post = EmptyString \/ exists post', post = String nl post').
Proof. apply findall_fuel_sound. Qed.

Lemma findall_channels_sound_witness :
  In ("7", "l.png", " Live") (findall_channels ex_line) /\
  "7" <> EmptyString /\ all_digits "7" = true /\
  "l.png" <> EmptyString /\ contains_char dq "l.png" = false /\
  contains_char "," " Live" = false /\ contains_char nl " Live" = false /\
  exists pre post, ex_line = pre ++ String "," (" Live" ++ post) /\
                   (post = EmptyString \/ exists post', post = String nl post').
Proof.
  assert (H : In ("7", "l.png", " Live") (findall_channels ex_line))
    by (vm_compute; left; reflexivity).
  split; [exact H|]. exact (findall_channels_sound ex_line _ _ _ H).
Defined.

(** [int(str(n)) = n]: [format_date] gives the same result for a
    timestamp sent as a decimal string as for the number itself. *)
Theorem format_date_string_timestamp (utc_offset : Z) (repr_container : json -> string) (ms : Z) :
  py_int (JStr (py_str repr_container (JInt ms))) = Some ms /\
  format_date utc_offset (JStr (py_str repr_container (JInt ms)))
  = format_date utc_offset (JInt ms).
Proof.
  split; [apply py_int_of_str|]. unfold format_date. rewrite py_int_of_str. reflexivity.
Qed.

(** A written document is a sequence of blocks, one per match of the
    channel pattern in playlist order: the [channel] element (even when
    the request fails), then the programmes of that channel, each naming
    it.  No document is written without a playlist. *)
Theorem generate_epg_layout (utc_offset : Z) (repr_container : json -> string)
    (file : option string) (net : nat -> response) (doc : list welement) :
  generate_epg utc_offset repr_container file net = WWritten doc ->
  exists content blocks,
    file = Some content /\
    map (fun b => match b with (cid, logo, name, _) => (cid, logo, name) end) blocks
    = findall_channels content /\
    doc = flat_map block_elements blocks /\
    Forall (fun b => match b with (cid, _, _, ps) => Forall (fun p => wp_channel p = cid) ps end)
           blocks.
Proof.
  unfold generate_epg. destruct file as [content|]; [|discriminate].
  destruct (channel_elements_blocks utc_offset repr_container net 0 (findall_channels content))
    as (blocks & H1 & H2 & H3).
  destruct (forallb _ _); [|discriminate].
  intros H; injection H as <-. exists content, blocks. auto.
Qed.

Definition wf_net : nat -> response :=
  fun i => if Nat.eqb i 0 then RHttp 200 (Some (JObj [("epg", JArr [ex_entry; JInt 3; ex_entry])]))
           else RExc.

Lemma generate_epg_layout_witness :
  generate_epg 0 (fun _ => EmptyString) (Some ex_line) wf_net
  = WWritten [WChannel "7" "Live" "l.png";
              WProgramme (mk_wprogramme "20231114221320 +0530" "20231114224320 +0530" "7"
                            (JStr "Test Show") (JStr EmptyString) (JStr "General") None None)] /\
  exists content blocks,
    Some ex_line = Some content /\
    map (fun b => match b with (cid, logo, name, _) => (cid, logo, name) end) blocks
    = findall_channels content /\
    [WChannel "7" "Live" "l.png";
     WProgramme (mk_wprogramme "20231114221320 +0530" "20231114224320 +0530" "7"
                   (JStr "Test Show") (JStr EmptyString) (JStr "General") None None)]
    = flat_map block_elements blocks /\
    Forall (fun b => match b with (cid, _, _, ps) => Forall (fun p => wp_channel p = cid) ps end)
           blocks.
Proof.
  assert (H : generate_epg 0 (fun _ => EmptyString) (Some ex_line) wf_net
              = WWritten [WChannel "7" "Live" "l.png";
                          WProgramme (mk_wprogramme "20231114221320 +0530" "20231114224320 +0530"
                                        "7" (JStr "Test Show") (JStr EmptyString)
                                        (JStr "General") None None)])
    by (vm_compute; reflexivity).
  split; [exact H|]. exact (generate_epg_layout 0 (fun _ => EmptyString) _ _ _ H).
Defined.

(** Within a 200 response whose [epg] is a list, the first item whose
    attributes raise ends the channel: the items before it give their
    programmes, in order, and none after it is used. *)
Theorem workflow_programmes_stop_at_error (utc_offset : Z) (repr_container : json -> string)
    (cid : string) (kvs : list (string * json)) (l1 l2 : list json) (bad : json) :
  obj_get "epg" kvs = Some (JArr (l1 ++ bad :: l2)) ->
  Forall (fun it => workflow_item utc_offset repr_container cid it <> None) l1 ->
  workflow_item utc_offset repr_container cid bad = None ->
  map Some (workflow_channel_programmes utc_offset repr_container cid (RHttp 200 (Some (JObj kvs))))
  = map (workflow_item utc_offset repr_container cid) l1.
Proof.
  intros He Hok Hbad. unfold workflow_channel_programmes. rewrite He. cbn [Z.eqb].
  exact (workflow_items_prefix _ _ _ _ _ _ Hok Hbad).
Qed.

Lemma workflow_programmes_stop_at_error_witness :
  obj_get "epg" [("epg", JArr [ex_entry; JInt 3; ex_entry])] = Some (JArr ([ex_entry] ++ JInt 3 :: [ex_entry])) /\
  Forall (fun it => workflow_item 0 (fun _ => EmptyString) "7" it <> None) [ex_entry] /\
  workflow_item 0 (fun _ => EmptyString) "7" (JInt 3) = None /\
  map Some (workflow_channel_programmes 0 (fun _ => EmptyString) "7"
              (RHttp 200 (Some (JObj [("epg", JArr [ex_entry; JInt 3; ex_entry])]))))
  = map (workflow_item 0 (fun _ => EmptyString) "7") [ex_entry].
Proof.
  assert (H1 : obj_get "epg" [("epg", JArr [ex_entry; JInt 3; ex_entry])]
               = Some (JArr ([ex_entry] ++ JInt 3 :: [ex_entry]))) by reflexivity.
  assert (H2 : Forall (fun it => workflow_item 0 (fun _ => EmptyString) "7" it <> None) [ex_entry])
    by (constructor; [vm_compute; discriminate | constructor]).
  assert (H3 : workflow_item 0 (fun _ => EmptyString) "7" (JInt 3) = None) by reflexivity.
  split; [exact H1|]. split; [exact H2|]. split; [exact H3|].
  exact (workflow_programmes_stop_at_error 0 (fun _ => EmptyString) "7" _ _ _ _ H1 H2 H3).
Defined.
